(** * GeoJsonDataSource: a shallow embedding of Source/DynamicScene/GeoJsonDataSource.js

    The development follows the JavaScript source function by function:
    [createObject], the [process...] handlers, the two dispatch tables
    [geoJsonObjectTypes] and [geometryTypes], the CRS registry and [load].

    Conventions of the embedding.
    - A JavaScript object used as a lookup table is a [gmap string _] of
      its own properties; a read [table[key]] is [js_get], which falls back
      on the members every object inherits from [Object.prototype].
    - A member that can be absent, [null] or present is a [Field]; a member
      that is only tested against [undefined] is an [option].
    - Code that can throw runs in the monad [M]: the state survives an
      exception, as the store does in JavaScript.
    - A promise is represented by the state it eventually settles in; a
      value handed over in place of a promise need not be one.
    - The [source] argument of [load] and of the handlers is passed along
      and never read by the source; it is left out. *)

From stdpp Require Import base strings list gmap pretty.
From Stdlib Require QArith_base.

Set Default Proof Using "Type".
Set Warnings "-register-all".

(** ** JSON input *)

(** A member of an object: absent ([typeof x === 'undefined']), [null], or
    holding a value. *)
Inductive Field (A : Type) : Type :=
| Undefined
| Null
| Defined (a : A).
Arguments Undefined {A}.
Arguments Null {A}.
Arguments Defined {A} a.

(** The [coordinates] member: JSON arrays nested to any depth over numbers. *)
Inductive Coordinates : Type :=
| Num (x : QArith_base.Q)
| Arr (items : list Coordinates).

(** [v.length]: defined for an array, [undefined] for a number. *)
Definition js_length (v : Coordinates) : option nat :=
  match v with
  | Num _ => None
  | Arr items => Some (length items)
  end.

(** [v[i]]: [undefined] past the end of an array and on a number. *)
Definition js_index (v : Coordinates) (i : nat) : option Coordinates :=
  match v with
  | Num _ => None
  | Arr items => items !! i
  end.

(** The elements visited by [for (i = 0; i < v.length; i++) ... v[i]]:
    [i < undefined] is false, so a number is not iterated at all. *)
Definition js_elements (v : Coordinates) : list Coordinates :=
  match v with
  | Num _ => []
  | Arr items => items
  end.

(** [crs.properties]: the members the source reads. *)
Record Properties : Type := mkProperties {
  props_name : option string;
  props_href : option string;
  props_type : option string }.

(** [geoJson.crs] *)
Record Crs : Type := mkCrs {
  crs_type : string;
  crs_properties : Field Properties }.

(** A GeoJSON object with the members the source reads. An absent [type]
    is the string "undefined": that is the key it is read under in a
    table and what the error messages show, and it is not "Feature". *)
Inductive GeoJson : Type := mkGeoJson {
  type : string;
  id : option string;
  crs : Field Crs;
  geometry : Field GeoJson;
  features : option (list GeoJson);
  geometries : option (list GeoJson);
  coordinates : option Coordinates }.

(** A property name computed from a value: [table[undefined]] reads the
    property named "undefined". *)
Definition js_key (k : option string) : string := default "undefined" k.

(** ** Errors and promises *)

(** The [DeveloperError]s of the source, named as in the error taxonomy,
    with the message of the source in the comment; [TypeError] is what the
    JavaScript engine raises on a member access on [undefined]; [Reason] is
    any value a CRS link resolver fails with; [OutOfFuel] belongs to the
    embedding (see [createObject]). *)
Inductive Error : Type :=
| MissingArgument                          (* 'geoJson is required.' *)
| UnsupportedDocumentType (t : string)     (* 'Unsupported GeoJSON object type: ' + t *)
| InvalidCrs (message : string)            (* 'crs is null.', 'crs.properties is undefined.' *)
| UnknownCrsName (name : option string)    (* 'Unknown crs name: ' + name *)
| UnresolvableCrsLink (p : Properties)     (* 'Unable to resolve crs link: ' + JSON.stringify(p) *)
| UnknownCrsType (t : string)              (* 'Unknown crs type: ' + t *)
| MissingGeometry                          (* 'feature.geometry is required.' *)
| UnknownGeometryType (t : string)         (* 'Unknown geometry type: ' + t *)
| TypeError
| Reason (r : string)
| OutOfFuel.

Inductive Result (A : Type) : Type :=
| Ok (a : A)
| Throw (e : Error).
Arguments Ok {A} a.
Arguments Throw {A} e.

(** What the source receives where it expects a promise of when.js: a
    promise, by the state it settles in ([Pending]: never), or a value
    that is no promise at all ([NoPromise]: reading [then] on it gives
    [undefined], and calling that throws a [TypeError]). *)
Inductive Promise (A : Type) : Type :=
| Fulfilled (a : A)
| Rejected (e : Error)
| Pending
| NoPromise.
Arguments Fulfilled {A} a.
Arguments Rejected {A} e.
Arguments Pending {A}.
Arguments NoPromise {A}.

(** ** Members inherited by the lookup tables *)

(** The tables of the source ([geoJsonObjectTypes], [geometryTypes],
    [crsNames], [crsLinkHrefs], [crsLinkTypes]) are object literals read
    with [table[key]]: a key without an entry of its own still finds a
    member the literal inherits from [Object.prototype] ("toString",
    "constructor", ...). The source calls what it found as a plain
    function, so a built-in member runs with [this] undefined. A member
    is given by what such a call does in the three places where a table
    value is called: as a handler [h(dataSource, ...)], as a transform
    [f(coordinates)] and as a link resolver [r(properties)]. No such
    call touches the data source. *)
Record Member (Value : Type) : Type := mkMember {
  asHandler : Result unit;
  asCrsFunction : option Coordinates -> Result Value;
  asResolver : Properties -> Result (Promise (option Coordinates -> Result Value)) }.
Arguments mkMember {Value} _ _ _.
Arguments asHandler {Value} _.
Arguments asCrsFunction {Value} _ _.
Arguments asResolver {Value} _ _.

(** ** The entity store *)

(** Modelled from the spec: [createGuid] (Core/createGuid, outside this
    file) returns "a fresh globally-unique identifier". The keys of the
    store are therefore of two kinds: [Guid n], the result of the [n]-th
    call of [createGuid], and [Id s], an identifier [s] taken from a
    document; a [Guid] differs from every [Id]. *)
Inductive Key : Type :=
| Guid (n : nat)
| Id (s : string).

#[global] Instance Key_eq_dec : EqDecision Key.
Proof. solve_decision. Defined.

Record ConstantPositionProperty (A : Type) : Type := mkConstantPositionProperty {
  _value : A }.
Arguments mkConstantPositionProperty {A} _.
Arguments _value {A} _.

(** The assignments the pipeline performs, in order. *)
Inductive Effect : Type :=
| Clear
| Create (k : Key)
| SetGeoJson (k : Key)
| Merge (k : Key)
| SetPosition (k : Key)
| SetVertexPositions (k : Key)
| Changed.

#[global] Instance Effect_eq_dec : EqDecision Effect.
Proof. solve_decision. Defined.

(** ** The data source and its collaborators *)

(** Positions and graphics are values of the scene framework
    (Core/Cartesian3, Core/Cartographic, DynamicPoint, DynamicPolyline,
    DynamicPolygon), outside this file; so are the two functions
    [defaultCrsFunction] is made of, [Cartographic.fromDegrees] and
    [Ellipsoid.WGS84.cartographicToCartesian]. [Cartesian] is the type of
    whatever a transform returns and the source stores as a position.
    [objectPrototype] gives the members of [Object.prototype] in the
    engine that runs the code, by name. *)
Class Scene : Type := mkScene {
  Cartesian : Type;
  Cartographic : Type;
  Graphics : Type;
  fromDegrees : option Coordinates -> option Coordinates -> option Coordinates -> Cartographic;
  cartographicToCartesian : Cartographic -> Cartesian;
  objectPrototype : string -> option (Member Cartesian) }.

Section GeoJsonDataSource.

Context `{scene : Scene}.

(** The graphics of a [DynamicObject]. *)
Record Style : Type := mkStyle {
  point : option Graphics;
  polyline : option Graphics;
  polygon : option Graphics }.

Record DynamicObject : Type := mkDynamicObject {
  geoJson : option GeoJson;
  graphics : Style;
  position : option (ConstantPositionProperty Cartesian);
  vertexPositions : option (ConstantPositionProperty (list (option Cartesian))) }.

(** [new DynamicObject(id)] *)
Definition newDynamicObject : DynamicObject :=
  {| geoJson := None;
     graphics := {| point := None; polyline := None; polygon := None |};
     position := None;
     vertexPositions := None |}.

(** Modelled from the spec: [DynamicObject.prototype.merge]
    (DynamicScene/DynamicObject, outside this file) is "a style overlay,
    not a replace": a graphics member already set on the entity stays,
    an unset one is taken from the template. *)
Definition overlay (own template : option Graphics) : option Graphics :=
  match own with
  | Some g => Some g
  | None => template
  end.

Definition merge (o : DynamicObject) (template : Style) : DynamicObject :=
  {| geoJson := geoJson o;
     graphics := {| point := overlay (point (graphics o)) (point template);
                    polyline := overlay (polyline (graphics o)) (polyline template);
                    polygon := overlay (polygon (graphics o)) (polygon template) |};
     position := position o;
     vertexPositions := vertexPositions o |}.

(** Modelled from the spec: [DynamicObjectCollection]
    (DynamicScene/DynamicObjectCollection, outside this file) offers
    [clear()], [getObject(key)] and [getOrCreateObject(key)], an
    "idempotent fetch-or-insert, order of first creation preserved". *)
Definition Collection : Type := list (Key * DynamicObject).

Fixpoint getObject (c : Collection) (k : Key) : option DynamicObject :=
  match c with
  | [] => None
  | (k', o) :: c' => if decide (k' = k) then Some o else getObject c' k
  end.

Definition getOrCreateObject (c : Collection) (k : Key) : Collection :=
  match getObject c k with
  | Some _ => c
  | None => c ++ [(k, newDynamicObject)]
  end.

(** An assignment to a member of the object stored under [k]. *)
Fixpoint update (c : Collection) (k : Key) (f : DynamicObject -> DynamicObject) : Collection :=
  match c with
  | [] => []
  | (k', o) :: c' =>
      if decide (k' = k) then (k', f o) :: c' else (k', o) :: update c' k f
  end.

Definition keys (c : Collection) : list Key := c.*1.

(** The state a call works on: the members of the data source, the number
    of identifiers [createGuid] has handed out, and the history of
    assignments. *)
Record DataSource : Type := mkDataSource {
  _dynamicObjectCollection : Collection;
  defaultPoint : Style;
  defaultLine : Style;
  defaultPolygon : Style;
  guids : nat;
  history : list Effect }.

(** The constructor, given the four default graphics it builds. *)
Definition newGeoJsonDataSource (point line outline fill : Graphics) (guids : nat) : DataSource :=
  {| _dynamicObjectCollection := [];
     defaultPoint := {| point := Some point; polyline := None; polygon := None |};
     defaultLine := {| point := None; polyline := Some line; polygon := None |};
     defaultPolygon := {| point := None; polyline := Some outline; polygon := Some fill |};
     guids := guids;
     history := [] |}.

Definition with_collection (ds : DataSource) (c : Collection) (e : list Effect) : DataSource :=
  {| _dynamicObjectCollection := c;
     defaultPoint := defaultPoint ds;
     defaultLine := defaultLine ds;
     defaultPolygon := defaultPolygon ds;
     guids := guids ds;
     history := history ds ++ e |}.

(** ** Computations that can throw *)

Definition M (A : Type) : Type := DataSource -> Result A * DataSource.

Definition ret {A} (a : A) : M A := fun ds => (Ok a, ds).

Definition throw {A} (e : Error) : M A := fun ds => (Throw e, ds).

Definition bind {A B} (m : M A) (k : A -> M B) : M B :=
  fun ds =>
    match m ds with
    | (Ok a, ds') => k a ds'
    | (Throw e, ds') => (Throw e, ds')
    end.

Notation "'let*' x ':=' m 'in' k" := (bind m (fun x => k))
  (at level 10, x pattern, m at level 100, k at level 200).
Notation "m ';;' k" := (bind m (fun _ => k))
  (at level 100, k at level 200, right associativity).

(** A value computed by code that can throw but touches no state. *)
Definition lift {A} (r : Result A) : M A := fun ds => (r, ds).

(** The body of a [for] loop run on each element in order. *)
Definition forEach {A} (body : A -> M unit) : list A -> M unit :=
  fix forEach (l : list A) : M unit :=
    match l with
    | [] => ret tt
    | x :: l' => body x ;; forEach l'
    end.

(** ** Operations on the store *)

Definition clear : M unit :=
  fun ds => (Ok tt, with_collection ds [] [Clear]).

(** [createGuid()] *)
Definition createGuid : M Key :=
  fun ds =>
    (Ok (Guid (guids ds)),
     {| _dynamicObjectCollection := _dynamicObjectCollection ds;
        defaultPoint := defaultPoint ds;
        defaultLine := defaultLine ds;
        defaultPolygon := defaultPolygon ds;
        guids := S (guids ds);
        history := history ds |}).

(** An assignment [dynamicObject.member = ...] on the object stored under
    [k], recorded in the history as [e]. *)
Definition assign (k : Key) (f : DynamicObject -> DynamicObject) (e : Effect) : M unit :=
  fun ds => (Ok tt, with_collection ds (update (_dynamicObjectCollection ds) k f) [e]).

Definition setGeoJson (k : Key) (g : GeoJson) : M unit :=
  assign k (fun o => {| geoJson := Some g; graphics := graphics o;
                        position := position o; vertexPositions := vertexPositions o |})
         (SetGeoJson k).

Definition mergeStyle (k : Key) (template : DataSource -> Style) : M unit :=
  fun ds => assign k (fun o => merge o (template ds)) (Merge k) ds.

Definition setPosition (k : Key) (p : Cartesian) : M unit :=
  assign k (fun o => {| geoJson := geoJson o; graphics := graphics o;
                        position := Some (mkConstantPositionProperty p);
                        vertexPositions := vertexPositions o |})
         (SetPosition k).

Definition setVertexPositions (k : Key) (ps : list (option Cartesian)) : M unit :=
  assign k (fun o => {| geoJson := geoJson o; graphics := graphics o;
                        position := position o;
                        vertexPositions := Some (mkConstantPositionProperty ps) |})
         (SetVertexPositions k).

(** ** createObject *)

(** The identifier tried after [n] collisions: [id], [id_2], [id_3], ... *)
Definition candidate (id : string) (n : nat) : string :=
  match n with
  | 0 => id
  | S _ => id +:+ "_" +:+ pretty (S n)
  end.

(** The [while] loop of [createObject], entered with [finalId] and [i];
    every turn uses one unit of [fuel]. *)
Fixpoint whileTaken (fuel : nat) (c : Collection) (id : string) (i : nat) (finalId : string)
  : option string :=
  match getObject c (Id finalId) with
  | None => Some finalId
  | Some _ =>
      match fuel with
      | 0 => None
      | S fuel' => whileTaken fuel' c id (S i) (id +:+ "_" +:+ pretty i)
      end
  end.

(** [dynamicObjectCollection.getOrCreateObject(k)] *)
Definition getOrCreate (k : Key) : M unit :=
  fun ds =>
    (Ok tt,
     with_collection ds (getOrCreateObject (_dynamicObjectCollection ds) k)
       match getObject (_dynamicObjectCollection ds) k with
       | Some _ => []
       | None => [Create k]
       end).

(** [createObject(geojson, dynamicObjectCollection)] returns the key of
    the object it fetched or created. The loop gets as many turns as the
    store has objects; [OutOfFuel] marks the end of the fuel and is never
    returned (lemmas [whileTaken_enough] and [finalId_spec]). *)
Definition finalId (id' : string) : M Key :=
  fun ds =>
    match whileTaken (length (_dynamicObjectCollection ds))
                     (_dynamicObjectCollection ds) id' 2 id' with
    | Some finalId => (Ok (Id finalId), ds)
    | None => (Throw OutOfFuel, ds)
    end.

Definition createObject (geojson : GeoJson) : M Key :=
  let* k :=
    match id geojson with
    | None => createGuid
    | Some id' => if decide (type geojson = "Feature") then finalId id' else createGuid
    end in
  getOrCreate k;;
  setGeoJson k geojson;;
  ret k.

(** ** Coordinate transforms *)

(** A [crsFunction] takes whatever it is handed, [undefined] included,
    and can throw. *)
Definition CrsFunction : Type := option Coordinates -> Result Cartesian.

(** [defaultCrsFunction(coordinates)]: reading [coordinates[0]] throws on
    [undefined]. *)
Definition defaultCrsFunction : CrsFunction :=
  fun coordinates =>
    match coordinates with
    | None => Throw TypeError
    | Some c =>
        let cartographic := fromDegrees (js_index c 0) (js_index c 1) (js_index c 2) in
        Ok (cartographicToCartesian cartographic)
    end.

(** [positions[i] = crsFunction(a[i])] for every element, in order. *)
Fixpoint transformEach (crsFunction : CrsFunction) (l : list Coordinates)
  : Result (list (option Cartesian)) :=
  match l with
  | [] => Ok []
  | c :: l' =>
      match crsFunction (Some c) with
      | Throw e => Throw e
      | Ok p =>
          match transformEach crsFunction l' with
          | Throw e => Throw e
          | Ok ps => Ok (Some p :: ps)
          end
      end
  end.

(** [var positions = new Array(a.length); for (...) positions[i] = crsFunction(a[i]);]
    for [a] a number, [a.length] is [undefined], [new Array(undefined)] is
    the one-element array [[undefined]] and the loop does not run. *)
Definition transformArray (crsFunction : CrsFunction) (a : Coordinates)
  : Result (list (option Cartesian)) :=
  match js_length a with
  | None => Ok [None]
  | Some _ => transformEach crsFunction (js_elements a)
  end.

(** ** GeoJson processing functions *)

Definition processPoint (geojson geometry : GeoJson) (crsFunction : CrsFunction) : M unit :=
  let* dynamicObject := createObject geojson in
  mergeStyle dynamicObject defaultPoint;;
  let* p := lift (crsFunction (coordinates geometry)) in
  setPosition dynamicObject p.

Definition processMultiPoint (geojson geometry : GeoJson) (crsFunction : CrsFunction) : M unit :=
  match coordinates geometry with
  | None => throw TypeError
  | Some coordinates =>
      forEach (fun c =>
        let* dynamicObject := createObject geojson in
        mergeStyle dynamicObject defaultPoint;;
        let* p := lift (crsFunction (Some c)) in
        setPosition dynamicObject p) (js_elements coordinates)
  end.

Definition processLineString (geojson geometry : GeoJson) (crsFunction : CrsFunction) : M unit :=
  let* dynamicObject := createObject geojson in
  match coordinates geometry with
  | None => throw TypeError
  | Some coordinates =>
      let* positions := lift (transformArray crsFunction coordinates) in
      mergeStyle dynamicObject defaultLine;;
      setVertexPositions dynamicObject positions
  end.

Definition processMultiLineString (geojson geometry : GeoJson) (crsFunction : CrsFunction) : M unit :=
  match coordinates geometry with
  | None => throw TypeError
  | Some lineStrings =>
      forEach (fun lineString =>
        let* dynamicObject := createObject geojson in
        let* positions := lift (transformArray crsFunction lineString) in
        mergeStyle dynamicObject defaultLine;;
        setVertexPositions dynamicObject positions) (js_elements lineStrings)
  end.

(** [geometry.coordinates[0]] is [undefined] for an empty array, and
    reading its [length] throws, after the object was created. *)
Definition processPolygon (geojson geometry : GeoJson) (crsFunction : CrsFunction) : M unit :=
  let* dynamicObject := createObject geojson in
  match coordinates geometry with
  | None => throw TypeError
  | Some rings =>
      match js_index rings 0 with
      | None => throw TypeError
      | Some coordinates =>
          let* positions := lift (transformArray crsFunction coordinates) in
          mergeStyle dynamicObject defaultPolygon;;
          setVertexPositions dynamicObject positions
      end
  end.

(** The loop on [q] runs the transform, the merge and the assignment once
    for every vertex of the outer ring. *)
Definition processMultiPolygon (geojson geometry : GeoJson) (crsFunction : CrsFunction) : M unit :=
  match coordinates geometry with
  | None => throw TypeError
  | Some polygons =>
      forEach (fun polygon =>
        let* dynamicObject := createObject geojson in
        match js_index polygon 0 with
        | None => throw TypeError
        | Some vertexPositions =>
            forEach (fun _ =>
              let* positions := lift (transformArray crsFunction vertexPositions) in
              mergeStyle dynamicObject defaultPolygon;;
              setVertexPositions dynamicObject positions) (js_elements vertexPositions)
        end) (js_elements polygons)
  end.

(** ** Dispatch tables *)

(** What a read [table[key]] finds: an entry of the table itself, or a
    member inherited from [Object.prototype]. *)
Inductive Found (A : Type) : Type :=
| Own (a : A)
| Inherited (member : Member Cartesian).
Arguments Own {A} a.
Arguments Inherited {A} member.

(** [table[key]]; [None] is [undefined]. An entry of the table shadows an
    inherited member of the same name. *)
Definition js_get {A} (table : gmap string A) (key : string) : option (Found A) :=
  match table !! key with
  | Some a => Some (Own a)
  | None => Inherited <$> objectPrototype key
  end.

(** The functions a dispatch table can hold. *)
Inductive GeometryHandler : Type :=
| ProcessGeometryCollection
| ProcessLineString
| ProcessMultiLineString
| ProcessMultiPoint
| ProcessMultiPolygon
| ProcessPoint
| ProcessPolygon.

Inductive ObjectHandler : Type :=
| ProcessFeature
| ProcessFeatureCollection
| Geometry (h : GeometryHandler).

(** The entries of the literal [geometryTypes]; the source reads it
    through [js_get]. *)
Definition geometryTypes : gmap string GeometryHandler :=
  list_to_map
    [ ("GeometryCollection", ProcessGeometryCollection);
      ("LineString", ProcessLineString);
      ("MultiLineString", ProcessMultiLineString);
      ("MultiPoint", ProcessMultiPoint);
      ("MultiPolygon", ProcessMultiPolygon);
      ("Point", ProcessPoint);
      ("Polygon", ProcessPolygon) ].

(** The entries of the literal [geoJsonObjectTypes]; the source reads it
    through [js_get]. *)
Definition geoJsonObjectTypes : gmap string ObjectHandler :=
  list_to_map
    [ ("Feature", ProcessFeature);
      ("FeatureCollection", ProcessFeatureCollection);
      ("GeometryCollection", Geometry ProcessGeometryCollection);
      ("LineString", Geometry ProcessLineString);
      ("MultiLineString", Geometry ProcessMultiLineString);
      ("MultiPoint", Geometry ProcessMultiPoint);
      ("MultiPolygon", Geometry ProcessMultiPolygon);
      ("Point", Geometry ProcessPoint);
      ("Polygon", Geometry ProcessPolygon) ].

Fixpoint processGeometryCollection (geoJson geometryCollection : GeoJson)
    (crsFunction : CrsFunction) {struct geometryCollection} : M unit :=
  match geometries geometryCollection with
  | None => throw TypeError
  | Some geometries =>
      forEach (fun geometry =>
        match js_get geometryTypes (type geometry) with
        | None => throw (UnknownGeometryType (type geometry))
        | Some (Inherited member) => lift (asHandler member)
        | Some (Own geometryHandler) =>
            match geometryHandler with
            | ProcessGeometryCollection => processGeometryCollection geoJson geometry crsFunction
            | ProcessLineString => processLineString geoJson geometry crsFunction
            | ProcessMultiLineString => processMultiLineString geoJson geometry crsFunction
            | ProcessMultiPoint => processMultiPoint geoJson geometry crsFunction
            | ProcessMultiPolygon => processMultiPolygon geoJson geometry crsFunction
            | ProcessPoint => processPoint geoJson geometry crsFunction
            | ProcessPolygon => processPolygon geoJson geometry crsFunction
            end
        end) geometries
  end.

(** The function an entry of [geometryTypes] stands for. *)
Definition geometryHandler (h : GeometryHandler)
  : GeoJson -> GeoJson -> CrsFunction -> M unit :=
  match h with
  | ProcessGeometryCollection => processGeometryCollection
  | ProcessLineString => processLineString
  | ProcessMultiLineString => processMultiLineString
  | ProcessMultiPoint => processMultiPoint
  | ProcessMultiPolygon => processMultiPolygon
  | ProcessPoint => processPoint
  | ProcessPolygon => processPolygon
  end.

(** The call [handler(dataSource, a, b, crsFunction, source)] of what a
    dispatch table gave: the function of an entry, or an inherited member. *)
Definition invoke {A} (run : A -> GeoJson -> GeoJson -> CrsFunction -> M unit)
    (found : Found A) : GeoJson -> GeoJson -> CrsFunction -> M unit :=
  match found with
  | Own h => run h
  | Inherited member => fun _ _ _ => lift (asHandler member)
  end.

Definition processFeature (feature : GeoJson) (crsFunction : CrsFunction) : M unit :=
  match geometry feature with
  | Undefined => throw MissingGeometry
  | Null => let* _ := createObject feature in ret tt
  | Defined geometry =>
      match js_get geometryTypes (type geometry) with
      | None => throw (UnknownGeometryType (type geometry))
      | Some found => invoke geometryHandler found feature geometry crsFunction
      end
  end.

Definition processFeatureCollection (featureCollection : GeoJson) (crsFunction : CrsFunction)
  : M unit :=
  match features featureCollection with
  | None => throw TypeError
  | Some features => forEach (fun feature => processFeature feature crsFunction) features
  end.

(** [Feature] and [FeatureCollection] do not use their third argument. *)
Definition typeHandler (h : ObjectHandler) : GeoJson -> GeoJson -> CrsFunction -> M unit :=
  match h with
  | ProcessFeature => fun feature _ => processFeature feature
  | ProcessFeatureCollection => fun featureCollection _ => processFeatureCollection featureCollection
  | Geometry g => geometryHandler g
  end.

(** ** The CRS registry *)

(** A link resolver is called with the properties of the link and is
    meant to return a promise of a transform; it can throw, and nothing
    keeps it from returning something else ([NoPromise]). *)
Definition Resolver : Type := Properties -> Result (Promise CrsFunction).

(** The three tables [GeoJsonDataSource.crsNames], [crsLinkHrefs] and
    [crsLinkTypes]; they are public and can be changed between loads. *)
Record Registry : Type := mkRegistry {
  crsNames : gmap string CrsFunction;
  crsLinkHrefs : gmap string Resolver;
  crsLinkTypes : gmap string Resolver }.

(** The entries of the three tables as the source initialises them. *)
Definition initialRegistry : Registry :=
  {| crsNames := list_to_map
       [ ("urn:ogc:def:crs:OGC:1.3:CRS84", defaultCrsFunction);
         ("EPSG:4326", defaultCrsFunction) ];
     crsLinkHrefs := ∅;
     crsLinkTypes := ∅ |}.

(** ** load *)

(** What [crsNames[name]] gave, as the transform it is called as. *)
Definition namedCrsFunction (found : Found CrsFunction) : CrsFunction :=
  match found with
  | Own crsFunction => crsFunction
  | Inherited member => asCrsFunction member
  end.

(** What [crsLinkHrefs[href]] or [crsLinkTypes[type]] gave, as the
    resolver it is called as. *)
Definition linkHandler (found : Found Resolver) : Resolver :=
  match found with
  | Own handler => handler
  | Inherited member => asResolver member
  end.

(** The part of [load] that checks for a coordinate reference system and
    builds [crsPromise]. [when(f, ...)] is a promise fulfilled with [f].
    With [crs.properties] equal to [null] the reads [properties.name] and
    [properties.href] throw. The three tables are read with [js_get]. *)
Definition crsPromise (R : Registry) (geoJson : GeoJson) : Result (Promise CrsFunction) :=
  match crs geoJson with
  | Undefined => Ok (Fulfilled defaultCrsFunction)
  | Null => Throw (InvalidCrs "crs is null.")
  | Defined crs =>
      match crs_properties crs with
      | Undefined => Throw (InvalidCrs "crs.properties is undefined.")
      | properties =>
          if decide (crs_type crs = "name") then
            match properties with
            | Defined properties =>
                match js_get (crsNames R) (js_key (props_name properties)) with
                | None => Throw (UnknownCrsName (props_name properties))
                | Some crsFunction => Ok (Fulfilled (namedCrsFunction crsFunction))
                end
            | _ => Throw TypeError
            end
          else if decide (crs_type crs = "link") then
            match properties with
            | Defined properties =>
                let handler :=
                  match js_get (crsLinkHrefs R) (js_key (props_href properties)) with
                  | Some handler => Some handler
                  | None => js_get (crsLinkTypes R) (js_key (props_type properties))
                  end in
                match handler with
                | None => Throw (UnresolvableCrsLink properties)
                | Some handler => linkHandler handler properties
                end
            | _ => Throw TypeError
            end
          else Throw (UnknownCrsType (crs_type crs))
      end
  end.

(** [that._changed.raiseEvent(that)] *)
Definition raiseChanged : M unit :=
  fun ds => (Ok tt, with_collection ds (_dynamicObjectCollection ds) [Changed]).

(** [promise.then(callback)]: the callback runs when the promise is
    fulfilled; an exception in it rejects the promise returned. On a
    value that is no promise the call itself throws. *)
Definition then_ {A} (promise : Promise A) (callback : A -> M unit) : M (Promise unit) :=
  fun ds =>
    match promise with
    | Fulfilled a =>
        match callback a ds with
        | (Ok _, ds') => (Ok (Fulfilled tt), ds')
        | (Throw e, ds') => (Ok (Rejected e), ds')
        end
    | Rejected e => (Ok (Rejected e), ds)
    | Pending => (Ok Pending, ds)
    | NoPromise => (Throw TypeError, ds)
    end.

(** [GeoJsonDataSource.prototype.load]; [None] is a call without
    [geoJson]. The result is the promise returned, or the exception
    thrown by the call itself, with the data source once the promise has
    settled. The call of [then] comes after the store was cleared, so
    the exception it throws on a [crsPromise] that is no promise leaves
    the store empty. *)
Definition load (R : Registry) (geoJson : option GeoJson) : M (Promise unit) :=
  match geoJson with
  | None => throw MissingArgument
  | Some geoJson =>
      match js_get geoJsonObjectTypes (type geoJson) with
      | None => throw (UnsupportedDocumentType (type geoJson))
      | Some typeHandler' =>
          let* crsPromise := lift (crsPromise R geoJson) in
          clear;;
          then_ crsPromise (fun crsFunction =>
            invoke typeHandler typeHandler' geoJson geoJson crsFunction;;
            raiseChanged)
      end
  end.

(** ** loadUrl *)

(** [GeoJsonDataSource.prototype.loadUrl]; [None] is a call without
    [url] (in the error taxonomy 'url is required.' is a
    [MissingArgument] too). [loadJson] (Core/loadJson, outside this file)
    is given by the promise it returns for a url (on anything else the
    call of [then] throws). Of the two callbacks of
    [then], the first returns the promise of [load], which the promise
    returned adopts, and an exception thrown by [load] rejects the promise
    returned; the second raises the error event and returns nothing, so
    the promise returned is fulfilled. The third component of the result
    lists what the call raised on [_error]. *)
Definition loadUrl (R : Registry) (loadJson : string -> Promise GeoJson)
    (url : option string) (ds : DataSource)
  : Result (Promise unit) * DataSource * list Error :=
  match url with
  | None => (Throw MissingArgument, ds, [])
  | Some url =>
      match loadJson url with
      | Fulfilled geoJson =>
          match load R (Some geoJson) ds with
          | (Ok promise, ds') => (Ok promise, ds', [])
          | (Throw e, ds') => (Ok (Rejected e), ds', [])
          end
      | Rejected error => (Ok (Fulfilled tt), ds, [error])
      | Pending => (Ok Pending, ds, [])
      | NoPromise => (Throw TypeError, ds, [])
      end
  end.

End GeoJsonDataSource.

Arguments Own {scene A} a.
Arguments Inherited {scene A} member.

Notation "'let*' x ':=' m 'in' k" := (bind m (fun x => k))
  (at level 10, x pattern, m at level 100, k at level 200).
Notation "m ';;' k" := (bind m (fun _ => k))
  (at level 100, k at level 200, right associativity).

(** ** Documents for examples *)

Definition node (t : string) : GeoJson :=
  {| type := t; id := None; crs := Undefined; geometry := Undefined;
     features := None; geometries := None; coordinates := None |}.

Definition withCoordinates (g : GeoJson) (c : Coordinates) : GeoJson :=
  {| type := type g; id := id g; crs := crs g; geometry := geometry g;
     features := features g; geometries := geometries g; coordinates := Some c |}.

Definition withCrs (g : GeoJson) (c : Field Crs) : GeoJson :=
  {| type := type g; id := id g; crs := c; geometry := geometry g;
     features := features g; geometries := geometries g; coordinates := coordinates g |}.

Definition feature (i : option string) (g : Field GeoJson) : GeoJson :=
  {| type := "Feature"; id := i; crs := Undefined; geometry := g;
     features := None; geometries := None; coordinates := None |}.

Definition featureCollection (fs : list GeoJson) : GeoJson :=
  {| type := "FeatureCollection"; id := None; crs := Undefined; geometry := Undefined;
     features := Some fs; geometries := None; coordinates := None |}.

Definition num (z : Z) : Coordinates := Num (QArith_base.Qmake z 1).

(** [[lon, lat]] *)
Definition lonLat (lon lat : Z) : Coordinates := Arr [num lon; num lat].

Definition namedCrs (n : string) : Field Crs :=
  Defined {| crs_type := "name";
             crs_properties := Defined {| props_name := Some n; props_href := None;
                                          props_type := None |} |}.

Definition linkCrs (h t : option string) : Field Crs :=
  Defined {| crs_type := "link";
             crs_properties := Defined {| props_name := None; props_href := h;
                                          props_type := t |} |}.

(** The values stored as positions in the examples: the triple of
    members that [defaultCrsFunction] hands to [fromDegrees], or what a
    member of [Object.prototype] returns when it is called as a
    transform: a string, a boolean, or an object made of its argument. *)
Inductive ExampleValue : Type :=
| Position (lon lat height : option Coordinates)
| Text (s : string)
| Boolean (b : bool)
| Wrapped (v : option Coordinates).

(** A member whose call throws in every place: it starts with
    [ToObject(this)], and [this] is undefined. *)
Definition throwingMember : Member ExampleValue :=
  {| asHandler := Throw TypeError;
     asCrsFunction := fun _ => Throw TypeError;
     asResolver := fun _ => Throw TypeError |}.

(** The members of [Object.prototype] in ECMAScript 5.1 (15.2.4), called
    with [this] undefined. [toString] returns "[object Undefined]" and
    [constructor], which is [Object], returns its first argument as an
    object; neither result has a [then]. [isPrototypeOf] returns [false]
    for an argument that is not an object and throws otherwise. The four
    others throw. *)
Definition exampleObjectPrototype : gmap string (Member ExampleValue) :=
  list_to_map
    [ ("constructor",
       {| asHandler := Ok tt;
          asCrsFunction := fun coordinates => Ok (Wrapped coordinates);
          asResolver := fun _ => Ok NoPromise |});
      ("toString",
       {| asHandler := Ok tt;
          asCrsFunction := fun _ => Ok (Text "[object Undefined]");
          asResolver := fun _ => Ok NoPromise |});
      ("toLocaleString", throwingMember);
      ("valueOf", throwingMember);
      ("hasOwnProperty", throwingMember);
      ("isPrototypeOf",
       {| asHandler := Throw TypeError;
          asCrsFunction := fun coordinates =>
            match coordinates with
            | Some (Arr _) => Throw TypeError
            | _ => Ok (Boolean false)
            end;
          asResolver := fun _ => Throw TypeError |});
      ("propertyIsEnumerable", throwingMember) ].

(** A scene for the examples: graphics are named, and every object
    inherits the members of [exampleObjectPrototype]. *)
Definition exampleScene : Scene :=
  {| Cartesian := ExampleValue;
     Cartographic := option Coordinates * option Coordinates * option Coordinates;
     Graphics := string;
     fromDegrees := fun lon lat height => (lon, lat, height);
     cartographicToCartesian := fun '(lon, lat, height) => Position lon lat height;
     objectPrototype := fun key => exampleObjectPrototype !! key |}.

(** A new data source. *)
Definition exampleDataSource : @DataSource exampleScene :=
  @newGeoJsonDataSource exampleScene "point" "line" "outline" "fill" 0.

(** [{"type":"Point","coordinates":[-75,40]}] *)
Definition pointDocument : GeoJson := withCoordinates (node "Point") (lonLat (-75) 40).

(** The data source after [pointDocument] was loaded into it. *)
Definition populatedDataSource : @DataSource exampleScene :=
  (load initialRegistry (Some pointDocument) exampleDataSource).2.

(** A registry with a resolver for one [href], whose promise is rejected. *)
Definition rejectingRegistry : @Registry exampleScene :=
  {| crsNames := crsNames initialRegistry;
     crsLinkHrefs := {[ "http://example.com/crs" :=
                         fun _ : Properties => Ok (Rejected (Reason "not found")) ]};
     crsLinkTypes := ∅ |}.

(** A registry with a resolver for the link type "proj4" only. *)
Definition typeRegistry : @Registry exampleScene :=
  {| crsNames := crsNames initialRegistry;
     crsLinkHrefs := ∅;
     crsLinkTypes := {[ "proj4" :=
                         fun _ : Properties => Ok (Fulfilled defaultCrsFunction) ]} |}.

Definition linkedDocument : GeoJson :=
  withCrs pointDocument (linkCrs (Some "http://example.com/crs") (Some "proj4")).

(** [{"type":"Polygon","coordinates":[]}] *)
Definition emptyPolygon : GeoJson := withCoordinates (node "Polygon") (Arr []).

(** [{"type":"Polygon","coordinates":[[]]}] *)
Definition emptyRingPolygon : GeoJson := withCoordinates (node "Polygon") (Arr [Arr []]).

(** A [MultiPolygon] of one triangle (a closed ring of four positions),
    and one whose only polygon has an empty outer ring. *)
Definition triangleMultiPolygon : GeoJson :=
  withCoordinates (node "MultiPolygon")
    (Arr [Arr [Arr [lonLat 0 0; lonLat 1 0; lonLat 1 1; lonLat 0 0]]]).

Definition emptyRingMultiPolygon : GeoJson :=
  withCoordinates (node "MultiPolygon") (Arr [Arr [Arr []]]).

(** Two features with the id "abc" and one without an id. *)
Definition abcFeatures : GeoJson :=
  featureCollection
    [ feature (Some "abc") (Defined pointDocument);
      feature (Some "abc") Null;
      feature None (Defined (withCoordinates (node "MultiPoint")
                               (Arr [lonLat 0 0; lonLat 1 1]))) ].


(** [{"type":"toString"}]: a type that no table has an entry for and
    every table inherits. *)
Definition inheritedTypeDocument : GeoJson := node "toString".

(** [pointDocument] with the crs
    [{"type":"link","properties":{"href":"constructor"}}]. *)
Definition inheritedLinkDocument : GeoJson :=
  withCrs pointDocument (linkCrs (Some "constructor") None).

(** A feature collection whose second feature has no [geometry] member. *)
Definition failingFeatures : GeoJson :=
  featureCollection
    [ feature (Some "abc") (Defined pointDocument);
      feature (Some "bad") Undefined;
      feature (Some "abc") Null ].

(** A line of two positions and a square with a hole. *)
Definition lineDocument : GeoJson :=
  withCoordinates (node "LineString") (Arr [lonLat 0 0; lonLat 1 1]).

Definition squareRing : Coordinates :=
  Arr [lonLat 0 0; lonLat 4 0; lonLat 4 4; lonLat 0 4; lonLat 0 0].

Definition holeRing : Coordinates :=
  Arr [lonLat 1 1; lonLat 2 1; lonLat 2 2; lonLat 1 1].

Definition squareWithHole : GeoJson :=
  withCoordinates (node "Polygon") (Arr [squareRing; holeRing]).

Definition multiSquareWithHole : GeoJson :=
  withCoordinates (node "MultiPolygon") (Arr [Arr [squareRing; holeRing]]).

(** The position [defaultCrsFunction] gives in [exampleScene]. *)
Definition examplePosition (lon lat : Z) : @Cartesian exampleScene :=
  Position (Some (num lon)) (Some (num lat)) None.

(** ** Notions used in the statements *)

Section Notions.

Context `{scene : Scene}.

(** Every identifier [createGuid] can still hand out is unused in the
    store; [clear] establishes this. *)
Definition guidsFresh (ds : DataSource) : Prop :=
  forall n, Guid n ∈ keys (_dynamicObjectCollection ds) -> n < guids ds.

(** The same, as a test. *)
Definition guidsFreshb (ds : DataSource) : bool :=
  forallb (fun k => match k with Guid n => n <? guids ds | Id _ => true end)
          (keys (_dynamicObjectCollection ds)).

(** The object [createObject] leaves in the store before any merge. *)
Definition created (geojson : GeoJson) : DynamicObject :=
  {| geoJson := Some geojson;
     graphics := {| point := None; polyline := None; polygon := None |};
     position := None;
     vertexPositions := None |}.

(** The data source with one more object [o] under [k], [guids'] as the
    count of identifiers handed out and [h] added to the history. *)
Definition extended (ds : DataSource) (k : Key) (o : DynamicObject) (guids' : nat)
    (h : list Effect) : DataSource :=
  {| _dynamicObjectCollection := _dynamicObjectCollection ds ++ [(k, o)];
     defaultPoint := defaultPoint ds;
     defaultLine := defaultLine ds;
     defaultPolygon := defaultPolygon ds;
     guids := guids';
     history := history ds ++ h |}.

(** The data source after [createObject] has put a new object under [k]. *)
Definition installed (ds : DataSource) (k : Key) (geojson : GeoJson) (guids' : nat)
  : DataSource :=
  extended ds k (created geojson) guids' [Create k; SetGeoJson k].

(** The object a single-entity handler leaves behind: created for
    [geojson], merged with [template], with the given position members. *)
Definition decoded (geojson : GeoJson) (template : Style)
    (p : option Cartesian) (ps : option (list (option Cartesian))) : DynamicObject :=
  {| geoJson := Some geojson;
     graphics := graphics (merge (created geojson) template);
     position := mkConstantPositionProperty <$> p;
     vertexPositions := mkConstantPositionProperty <$> ps |}.

(** The last object of the store is [k], refers to [geojson] and comes
    after the objects [c]. *)
Definition lastObject (c : Collection) (k : Key) (geojson : GeoJson) (ds : DataSource)
  : Prop :=
  exists o, _dynamicObjectCollection ds = c ++ [(k, o)] /\ geoJson o = Some geojson /\
            (k ∉ keys c) /\ guidsFresh ds.

(** [ds'] has [n] objects more than [ds], all of them referring to
    [geojson], added after those of [ds]. *)
Definition grows (geojson : GeoJson) (n : nat) (ds ds' : DataSource) : Prop :=
  exists seg, _dynamicObjectCollection ds' = _dynamicObjectCollection ds ++ seg /\
              length seg = n /\
              Forall (fun e => geoJson e.2 = Some geojson) seg /\
              guidsFresh ds'.

(** A computation keeps a property of the data source, however it ends. *)
Definition preserves {A} (P : DataSource -> Prop) (m : M A) : Prop :=
  forall ds, P ds -> P (m ds).2.

(** The number of entities a geometry expands to: one for [Point],
    [LineString] and [Polygon], one per element of [coordinates] for the
    three multi-geometries, the sum over its members for a
    [GeometryCollection]. *)
Fixpoint expansionCount (geometry : GeoJson) : nat :=
  match geometryTypes !! type geometry with
  | Some ProcessPoint | Some ProcessLineString | Some ProcessPolygon => 1
  | Some ProcessMultiPoint | Some ProcessMultiLineString | Some ProcessMultiPolygon =>
      match coordinates geometry with
      | Some c => length (js_elements c)
      | None => 0
      end
  | Some ProcessGeometryCollection =>
      match geometries geometry with
      | Some gs => sum_list_with expansionCount gs
      | None => 0
      end
  | None => 0
  end.

(** The same for a feature: a [null] geometry gives one entity. *)
Definition featureExpansion (feature : GeoJson) : nat :=
  match geometry feature with
  | Undefined => 0
  | Null => 1
  | Defined g => expansionCount g
  end.

(** The entities of one feature: as many as it expands to, all referring
    to it. *)
Definition entitiesOf (feature : GeoJson) (seg : Collection) : Prop :=
  length seg = featureExpansion feature /\
  Forall (fun e => geoJson e.2 = Some feature) seg.

(** Comparing two runs on documents that differ in their [crs] member
    only: the reference an entity holds to its GeoJSON object is compared
    with the [crs] member of that object left out. *)
Definition forgetCrs (g : GeoJson) : GeoJson := withCrs g Undefined.

Definition forgetObject (o : DynamicObject) : DynamicObject :=
  {| geoJson := forgetCrs <$> geoJson o;
     graphics := graphics o;
     position := position o;
     vertexPositions := vertexPositions o |}.

Definition forgetEntry (e : Key * DynamicObject) : Key * DynamicObject :=
  (e.1, forgetObject e.2).

Definition forgetDataSource (ds : DataSource) : DataSource :=
  {| _dynamicObjectCollection := forgetEntry <$> _dynamicObjectCollection ds;
     defaultPoint := defaultPoint ds;
     defaultLine := defaultLine ds;
     defaultPolygon := defaultPolygon ds;
     guids := guids ds;
     history := history ds |}.

Definition forget {A} (x : Result A * DataSource) : Result A * DataSource :=
  (x.1, forgetDataSource x.2).

(** Two computations that, started in data sources that agree up to
    [forgetDataSource], end alike and in data sources that agree again. *)
Definition alike {A} (m1 m2 : M A) : Prop :=
  forall ds1 ds2, forgetDataSource ds1 = forgetDataSource ds2 ->
                  forget (m1 ds1) = forget (m2 ds2).

(** The effects of the handlers: everything but [Clear] and [Changed]. *)
Definition isEntityEffect (e : Effect) : bool :=
  match e with
  | Clear | Changed => false
  | _ => true
  end.

(** The history is [h0] followed by effects of the handlers only. *)
Definition entityHistory (h0 : list Effect) (ds : DataSource) : Prop :=
  exists h, history ds = h0 ++ h /\ Forall (fun e => isEntityEffect e = true) h.

(** The key [createObject] can give an entity made for [geojson]: a key
    derived from the [id] for a [Feature] that has one, an identifier of
    [createGuid] otherwise. *)
Definition keyFits (geojson : GeoJson) (k : Key) : Prop :=
  match k with
  | Id s' => type geojson = "Feature" /\
             exists (s : string) n, id geojson = Some s /\ s' = candidate s n
  | Guid _ => id geojson = None \/ type geojson <> "Feature"
  end.

(** An entry of the store made for one of the nodes [Q]. *)
Definition madeFrom (Q : GeoJson -> Prop) (e : Key * DynamicObject) : Prop :=
  exists node, Q node /\ geoJson e.2 = Some node /\ keyFits node e.1.

(** [ds'] is [ds] with entries added at the end, under new and distinct
    keys, all made for nodes [Q]; the entries of [ds] are as they were. *)
Definition appends (Q : GeoJson -> Prop) (ds ds' : DataSource) : Prop :=
  exists seg,
    _dynamicObjectCollection ds' = _dynamicObjectCollection ds ++ seg /\
    Forall (madeFrom Q) seg /\
    NoDup (keys seg) /\
    (forall k, k ∈ keys seg -> k ∉ keys (_dynamicObjectCollection ds)) /\
    guidsFresh ds'.

(** The nodes of a document that entities are made for: the features of
    a [FeatureCollection], the document itself otherwise. *)
Definition documentNodes (geoJson node : GeoJson) : Prop :=
  if decide (type geoJson = "FeatureCollection")
  then exists fs, features geoJson = Some fs /\ node ∈ fs
  else node = geoJson.

(** How often the history assigns a position member of the object [k]. *)
Definition positionAssignments (k : Key) (h : list Effect) : nat :=
  length (filter (fun e => e = SetPosition k \/ e = SetVertexPositions k) h).

End Notions.

(** * Properties *)

Section Properties.

Context `{scene : Scene}.

Implicit Types (c : Collection) (k : Key) (ds : DataSource) (g geojson : GeoJson).

(** ** The store *)

Lemma getObject_None c k : getObject c k = None <-> k ∉ keys c.
Proof.
  unfold keys. induction c as [|[k' o] c IH]; csimpl.
  - split; [intros _; apply not_elem_of_nil | done].
  - rewrite not_elem_of_cons. destruct (decide (k' = k)) as [->|Hne].
    + split; [done | intros [? _]; done].
    + rewrite IH. split; [intros ?; split; [congruence | done] | intros [_ ?]; done].
Qed.

Lemma getObject_Some c k : is_Some (getObject c k) <-> k ∈ keys c.
Proof.
  destruct (getObject c k) eqn:E.
  - split; [intros _ | eauto]. destruct (decide (k ∈ keys c)) as [|Hn]; [done|].
    apply getObject_None in Hn. congruence.
  - apply getObject_None in E as E'. split; [intros [? ?]; done | done].
Qed.

Lemma keys_update c k f : keys (update c k f) = keys c.
Proof.
  unfold keys. induction c as [|[k' o] c IH]; csimpl; [done|].
  destruct (decide (k' = k)); csimpl; [done | by rewrite IH].
Qed.

Lemma update_app_new c k o f :
  k ∉ keys c -> update (c ++ [(k, o)]) k f = c ++ [(k, f o)].
Proof.
  unfold keys. induction c as [|[k' o'] c IH]; csimpl; intros Hk.
  - by rewrite decide_True.
  - apply not_elem_of_cons in Hk as [Hne Hk].
    rewrite decide_False by congruence. by rewrite IH.
Qed.

Lemma getOrCreateObject_new c k :
  k ∉ keys c -> getOrCreateObject c k = c ++ [(k, newDynamicObject)].
Proof. intros Hk. unfold getOrCreateObject. by apply getObject_None in Hk as ->. Qed.

Lemma guidsFreshb_correct ds : guidsFreshb ds = true -> guidsFresh ds.
Proof.
  unfold guidsFreshb, guidsFresh. rewrite forallb_forall. intros H n Hn.
  apply list_elem_of_In, H in Hn. by apply Nat.ltb_lt.
Qed.

(** ** The identifiers tried by [createObject] *)

Lemma append_ne_self (s t : string) : t <> "" -> s <> s +:+ t.
Proof.
  intros Ht. induction s as [|a s IH]; simpl.
  - intros Heq. by apply Ht.
  - intros [=]. done.
Qed.

Lemma candidate_inj (s : string) : Inj (=) (=) (candidate s).
Proof.
  intros [|n] [|m]; simpl; intros Heq; [done | | |].
  - by apply append_ne_self in Heq.
  - symmetry in Heq. by apply append_ne_self in Heq.
  - apply (inj (String.app s)), (inj (String.app "_")), (inj pretty) in Heq. lia.
Qed.

(** The loop entered at the [n]-th candidate stops at the first unused
    one; without fuel left, every candidate it looked at is in use. *)
Lemma whileTaken_spec fuel c (s : string) n :
  match whileTaken fuel c s (S (S n)) (candidate s n) with
  | Some r =>
      exists n', n <= n' /\ r = candidate s n' /\ (Id r ∉ keys c) /\
                 forall m, n <= m -> m < n' -> Id (candidate s m) ∈ keys c
  | None => forall m, n <= m -> m <= n + fuel -> Id (candidate s m) ∈ keys c
  end.
Proof.
  assert (Hstop : forall n, getObject c (Id (candidate s n)) = None ->
    exists n', n <= n' /\ candidate s n = candidate s n' /\ (Id (candidate s n) ∉ keys c) /\
               forall m, n <= m -> m < n' -> Id (candidate s m) ∈ keys c).
  { intros n0 E. exists n0. split; [lia|]. split; [done|].
    split; [by apply getObject_None|]. intros m ? ?. lia. }
  revert n. induction fuel as [|fuel IH]; intros n; cbn [whileTaken].
  - destruct (getObject c (Id (candidate s n))) eqn:E; [|by apply Hstop].
    intros m ? ?. assert (m = n) as -> by lia. apply getObject_Some. eauto.
  - destruct (getObject c (Id (candidate s n))) eqn:E; [|by apply Hstop].
    assert (Hn : Id (candidate s n) ∈ keys c) by (apply getObject_Some; eauto).
    specialize (IH (S n)).
    change (candidate s (S n)) with (s +:+ "_" +:+ pretty (S (S n))) in IH at 1.
    destruct (whileTaken fuel c s (S (S (S n))) (s +:+ "_" +:+ pretty (S (S n)))) as [r|].
    + destruct IH as (n' & Hle & -> & Hfree & Hused).
      exists n'. split; [lia|]. split; [done|]. split; [done|].
      intros m ? ?. destruct (decide (m = n)) as [->|]; [done|]. apply Hused; lia.
    + intros m ? ?. destruct (decide (m = n)) as [->|]; [done|]. apply IH; lia.
Qed.

(** As many turns as the store has objects are enough. *)
Lemma whileTaken_enough c (s : string) :
  is_Some (whileTaken (length c) c s 2 s).
Proof.
  pose proof (whileTaken_spec (length c) c s 0) as H.
  change (candidate s 0) with s in H.
  destruct (whileTaken (length c) c s 2 s); [eauto|]. exfalso.
  assert (Hsub : (fun m => Id (candidate s m)) <$> seq 0 (S (length c)) ⊆+ keys c).
  { apply NoDup_submseteq.
    - apply NoDup_fmap_2; [|apply NoDup_seq].
      intros a b [=]. by apply (candidate_inj s).
    - intros x (m & -> & Hm)%list_elem_of_fmap. apply elem_of_seq in Hm. apply H; lia. }
  apply submseteq_length in Hsub.
  rewrite length_fmap, length_seq in Hsub. unfold keys in Hsub.
  rewrite length_fmap in Hsub. lia.
Qed.

(** ** createObject *)

Lemma finalId_spec (s : string) ds :
  exists n, finalId s ds = (Ok (Id (candidate s n)), ds) /\
            (Id (candidate s n) ∉ keys (_dynamicObjectCollection ds)) /\
            forall m, m < n -> Id (candidate s m) ∈ keys (_dynamicObjectCollection ds).
Proof.
  unfold finalId.
  pose proof (whileTaken_spec (length (_dynamicObjectCollection ds))
                (_dynamicObjectCollection ds) s 0) as H.
  change (candidate s 0) with s in H.
  destruct (whileTaken_enough (_dynamicObjectCollection ds) s) as [r Hr].
  rewrite Hr in H |- *. destruct H as (n & _ & -> & Hfree & Hused).
  exists n. split; [done|]. split; [done|]. intros m ?. apply Hused; lia.
Qed.

(** Putting a new object under an unused key. *)
Lemma install_new k geojson ds :
  k ∉ keys (_dynamicObjectCollection ds) ->
  (getOrCreate k;; setGeoJson k geojson;; ret k) ds
  = (Ok k, installed ds k geojson (guids ds)).
Proof.
  intros Hk.
  unfold bind, getOrCreate, setGeoJson, assign, ret, installed, extended, with_collection.
  cbn [fst snd _dynamicObjectCollection defaultPoint defaultLine defaultPolygon guids history].
  rewrite getOrCreateObject_new by done. rewrite update_app_new by done.
  apply getObject_None in Hk as ->. by rewrite <- app_assoc.
Qed.

Lemma createObject_id geojson (s : string) ds :
  type geojson = "Feature" -> id geojson = Some s ->
  exists n,
    createObject geojson ds
    = (Ok (Id (candidate s n)), installed ds (Id (candidate s n)) geojson (guids ds)) /\
    (Id (candidate s n) ∉ keys (_dynamicObjectCollection ds)) /\
    forall m, m < n -> Id (candidate s m) ∈ keys (_dynamicObjectCollection ds).
Proof.
  intros Ht Hid. destruct (finalId_spec s ds) as (n & Hrun & Hfree & Hused).
  exists n. split; [|done]. unfold createObject. rewrite Hid, decide_True by done.
  unfold bind at 1. rewrite Hrun. by apply install_new.
Qed.

Lemma createObject_guid geojson ds :
  id geojson = None \/ type geojson <> "Feature" ->
  guidsFresh ds ->
  createObject geojson ds
  = (Ok (Guid (guids ds)), installed ds (Guid (guids ds)) geojson (S (guids ds))).
Proof.
  intros Hcase Hfresh.
  assert (Hk : Guid (guids ds) ∉ keys (_dynamicObjectCollection ds)).
  { intros Hin. apply Hfresh in Hin. lia. }
  assert (createObject geojson ds
          = (let* k := createGuid in getOrCreate k;; setGeoJson k geojson;; ret k) ds) as ->.
  { unfold createObject. destruct (id geojson) as [s|]; [|done].
    destruct Hcase as [|Hne]; [done|]. by rewrite decide_False. }
  unfold bind at 1. unfold createGuid.
  rewrite install_new by done. done.
Qed.

Lemma guidsFresh_installed ds k geojson n :
  guidsFresh ds -> guids ds <= n -> (forall i, k = Guid i -> i < n) ->
  guidsFresh (installed ds k geojson n).
Proof.
  intros Hfresh Hle Hk i. unfold installed, extended, keys; cbn.
  rewrite fmap_app, elem_of_app. intros [Hin|Hin].
  - apply Hfresh in Hin. lia.
  - apply list_elem_of_singleton in Hin. cbn in Hin. by apply Hk.
Qed.

(** [createObject] always returns, and always with a new object. *)
Lemma createObject_new geojson ds :
  guidsFresh ds ->
  exists k n,
    createObject geojson ds = (Ok k, installed ds k geojson n) /\
    (k ∉ keys (_dynamicObjectCollection ds)) /\
    guidsFresh (installed ds k geojson n).
Proof.
  intros Hfresh.
  destruct (id geojson) as [s|] eqn:Hid; [destruct (decide (type geojson = "Feature")) as [Ht|Ht]|].
  - destruct (createObject_id geojson s ds Ht Hid) as (n & Hrun & Hfree & _).
    exists (Id (candidate s n)), (guids ds). split; [done|]. split; [done|].
    apply guidsFresh_installed; [done | lia | intros i [=]].
  - exists (Guid (guids ds)), (S (guids ds)).
    split; [apply createObject_guid; auto|].
    split; [intros Hin; apply Hfresh in Hin; lia|].
    apply guidsFresh_installed; [done | lia | intros i [= ->]; lia].
  - exists (Guid (guids ds)), (S (guids ds)).
    split; [apply createObject_guid; auto|].
    split; [intros Hin; apply Hfresh in Hin; lia|].
    apply guidsFresh_installed; [done | lia | intros i [= ->]; lia].
Qed.

(** ** Computations that keep a property *)

Lemma preserves_ret {A} P (a : A) : preserves P (ret a).
Proof. by intros ds. Qed.

Lemma preserves_throw {A} P e : preserves P (throw (A := A) e).
Proof. by intros ds. Qed.

Lemma preserves_lift {A} P (r : Result A) : preserves P (lift r).
Proof. by intros ds. Qed.

Lemma preserves_bind {A B} P (m : M A) (f : A -> M B) :
  preserves P m -> (forall a, preserves P (f a)) -> preserves P (bind m f).
Proof.
  intros Hm Hf ds HP. unfold bind. specialize (Hm ds HP).
  destruct (m ds) as [[a|e] ds1]; [by apply Hf | done].
Qed.

Lemma preserves_forEach {A} P (body : A -> M unit) l :
  (forall x, preserves P (body x)) -> preserves P (forEach body l).
Proof.
  intros Hbody. induction l as [|x l IH]; cbn [forEach].
  - apply preserves_ret.
  - apply preserves_bind; [apply Hbody | intros _; apply IH].
Qed.

(** An assignment to the last object that leaves [geoJson] alone. *)
Lemma preserves_assign c k geojson f e :
  (forall o, geoJson (f o) = geoJson o) ->
  preserves (lastObject c k geojson) (assign k f e).
Proof.
  intros Hf ds (o & Hc & Hg & Hk & Hfresh). exists (f o). cbn.
  split; [by rewrite Hc, update_app_new|]. split; [by rewrite Hf|].
  split; [done|]. intros i. unfold with_collection.
  cbn [_dynamicObjectCollection guids]. rewrite keys_update. apply Hfresh.
Qed.

Lemma preserves_mergeStyle c k geojson template :
  preserves (lastObject c k geojson) (mergeStyle k template).
Proof. intros ds. unfold mergeStyle. by apply preserves_assign. Qed.

Lemma preserves_setPosition c k geojson p :
  preserves (lastObject c k geojson) (setPosition k p).
Proof. by apply preserves_assign. Qed.

Lemma preserves_setVertexPositions c k geojson ps :
  preserves (lastObject c k geojson) (setVertexPositions k ps).
Proof. by apply preserves_assign. Qed.

Lemma lastObject_installed ds k geojson n :
  k ∉ keys (_dynamicObjectCollection ds) -> guidsFresh (installed ds k geojson n) ->
  lastObject (_dynamicObjectCollection ds) k geojson (installed ds k geojson n).
Proof. intros Hk Hfresh. by exists (created geojson). Qed.

Lemma lastObject_grows ds ds' k geojson :
  lastObject (_dynamicObjectCollection ds) k geojson ds' -> grows geojson 1 ds ds'.
Proof.
  intros (o & Hc & Hg & _ & Hfresh). exists [(k, o)].
  split; [done|]. split; [done|]. split; [by apply Forall_singleton | done].
Qed.

(** [createObject] followed by work on the object it returned: one more
    object, whether or not the work throws. *)
Lemma createObject_then_grows {A} geojson (rest : Key -> M A) ds :
  guidsFresh ds ->
  (forall k, preserves (lastObject (_dynamicObjectCollection ds) k geojson) (rest k)) ->
  grows geojson 1 ds ((let* k := createObject geojson in rest k) ds).2.
Proof.
  intros Hfresh Hrest.
  destruct (createObject_new geojson ds Hfresh) as (k & n & Hrun & Hk & Hfresh').
  unfold bind. rewrite Hrun. eapply lastObject_grows, Hrest.
  by apply lastObject_installed.
Qed.

Lemma grows_refl geojson ds : guidsFresh ds -> grows geojson 0 ds ds.
Proof. intros ?. exists []. by rewrite app_nil_r. Qed.

Lemma grows_trans geojson n m ds1 ds2 ds3 :
  grows geojson n ds1 ds2 -> grows geojson m ds2 ds3 -> grows geojson (n + m) ds1 ds3.
Proof.
  intros (s1 & H1 & L1 & F1 & _) (s2 & H2 & L2 & F2 & Hfresh). exists (s1 ++ s2).
  rewrite H2, H1, <- app_assoc. split; [done|].
  split; [rewrite length_app; lia|]. split; [by apply Forall_app | done].
Qed.

(** A loop that ends normally added what its turns added. *)
Lemma forEach_grows {A} geojson (count : A -> nat) (body : A -> M unit) l ds ds' :
  (forall x ds1 ds2, x ∈ l -> guidsFresh ds1 -> body x ds1 = (Ok tt, ds2) ->
                     grows geojson (count x) ds1 ds2) ->
  guidsFresh ds ->
  forEach body l ds = (Ok tt, ds') ->
  grows geojson (sum_list_with count l) ds ds'.
Proof.
  revert ds. induction l as [|x l IH]; intros ds Hbody Hfresh; cbn [forEach sum_list_with].
  - intros [= <-]. by apply grows_refl.
  - unfold bind. destruct (body x ds) as [[[]|e] ds1] eqn:Hx; [|done]. intros Hrun.
    assert (Hg : grows geojson (count x) ds ds1) by (apply Hbody; [left | done | done]).
    eapply grows_trans; [exact Hg|]. apply IH; [|by destruct Hg as (? & ? & ? & ? & ?)|done].
    intros y ds2 ds3 Hy. apply Hbody. by right.
Qed.

(** ** Induction on nested geometry collections *)

Lemma GeoJson_geometries_ind (P : GeoJson -> Prop) :
  (forall g, (forall gs, geometries g = Some gs -> Forall P gs) -> P g) ->
  forall g, P g.
Proof.
  intros H. fix IH 1. intros [t i c ge fs gs co]. apply H. cbn.
  intros gs' Hgs. destruct gs as [gs|]; [|discriminate]. injection Hgs as <-.
  revert gs. fix IHgs 1. intros [|g gs]; constructor; [apply IH | apply IHgs].
Qed.

Lemma forEach_ext {A} (body1 body2 : A -> M unit) l :
  (forall x, x ∈ l -> body1 x = body2 x) -> forEach body1 l = forEach body2 l.
Proof.
  induction l as [|x l IH]; intros Hext; cbn [forEach]; [done|].
  rewrite (Hext x) by left. rewrite IH; [done|]. intros y Hy. apply Hext. by right.
Qed.

(** ** Reads of the tables *)

(** An entry of the table is found whatever the table inherits. *)
Lemma js_get_own {A} (table : gmap string A) key (a : A) :
  table !! key = Some a -> js_get table key = Some (Own a).
Proof. intros H. unfold js_get. by rewrite H. Qed.

Lemma js_get_Own {A} (table : gmap string A) key (a : A) :
  js_get table key = Some (Own a) -> table !! key = Some a.
Proof.
  unfold js_get. destruct (table !! key); [congruence|].
  by destruct (objectPrototype key).
Qed.

Lemma js_get_Inherited {A} (table : gmap string A) key member :
  js_get table key = Some (Inherited member) ->
  table !! key = None /\ objectPrototype key = Some member.
Proof.
  unfold js_get. destruct (table !! key); [done|].
  destruct (objectPrototype key); [|done]. csimpl. intros [= <-]. done.
Qed.

(** A read gives [undefined] exactly for a key that is neither an entry
    of the table nor the name of an inherited member. *)
Lemma js_get_None {A} (table : gmap string A) key :
  js_get table key = None <-> table !! key = None /\ objectPrototype key = None.
Proof.
  unfold js_get. destruct (table !! key).
  - split; [done|]. by intros [? _].
  - destruct (objectPrototype key); csimpl; split; try done. by intros [_ ?].
Qed.

(** [processGeometryCollection] calls what it finds in [geometryTypes] on
    every member, in order. *)
Lemma processGeometryCollection_unfold geoJson geometryCollection crsFunction :
  processGeometryCollection geoJson geometryCollection crsFunction
  = match geometries geometryCollection with
    | None => throw TypeError
    | Some gs =>
        forEach (fun geometry =>
          match js_get geometryTypes (type geometry) with
          | None => throw (UnknownGeometryType (type geometry))
          | Some found => invoke geometryHandler found geoJson geometry crsFunction
          end) gs
    end.
Proof.
  destruct geometryCollection as [t i c ge fs [gs|] co];
    cbn [processGeometryCollection geometries]; [|done].
  apply forEach_ext. intros x _.
  destruct (js_get geometryTypes (type x)) as [[[]|member]|]; done.
Qed.

Lemma expansionCount_unfold geometry :
  expansionCount geometry
  = match geometryTypes !! type geometry with
    | Some ProcessPoint | Some ProcessLineString | Some ProcessPolygon => 1
    | Some ProcessMultiPoint | Some ProcessMultiLineString | Some ProcessMultiPolygon =>
        match coordinates geometry with
        | Some c => length (js_elements c)
        | None => 0
        end
    | Some ProcessGeometryCollection =>
        match geometries geometry with
        | Some gs => sum_list_with expansionCount gs
        | None => 0
        end
    | None => 0
    end.
Proof. by destruct geometry. Qed.

(** ** What the handlers add to the store *)

Lemma sum_list_with_const {A} (l : list A) : sum_list_with (fun _ => 1) l = length l.
Proof. induction l; cbn; congruence. Qed.

Ltac preserve :=
  repeat first
    [ apply preserves_ret | apply preserves_throw | apply preserves_lift
    | apply preserves_mergeStyle | apply preserves_setPosition
    | apply preserves_setVertexPositions
    | apply preserves_bind; [|intros ?]
    | apply preserves_forEach; intros ?
    | match goal with
      | |- preserves _ (match ?x with _ => _ end) => destruct x
      end ].

Lemma grows_of_run {A} geojson n (m : M A) ds r ds' :
  grows geojson n ds (m ds).2 -> m ds = (r, ds') -> grows geojson n ds ds'.
Proof. intros H E. by rewrite E in H. Qed.

Lemma processPoint_grows geojson geometry crsFunction ds r ds' :
  guidsFresh ds -> processPoint geojson geometry crsFunction ds = (r, ds') ->
  grows geojson 1 ds ds'.
Proof.
  intros Hfresh. apply grows_of_run. unfold processPoint.
  apply createObject_then_grows; [done|]. intros k. preserve.
Qed.

Lemma processLineString_grows geojson geometry crsFunction ds r ds' :
  guidsFresh ds -> processLineString geojson geometry crsFunction ds = (r, ds') ->
  grows geojson 1 ds ds'.
Proof.
  intros Hfresh. apply grows_of_run. unfold processLineString.
  apply createObject_then_grows; [done|]. intros k. preserve.
Qed.

Lemma processPolygon_grows geojson geometry crsFunction ds r ds' :
  guidsFresh ds -> processPolygon geojson geometry crsFunction ds = (r, ds') ->
  grows geojson 1 ds ds'.
Proof.
  intros Hfresh. apply grows_of_run. unfold processPolygon.
  apply createObject_then_grows; [done|]. intros k. preserve.
Qed.

Lemma processMultiPoint_grows geojson geometry crsFunction ds ds' :
  guidsFresh ds -> processMultiPoint geojson geometry crsFunction ds = (Ok tt, ds') ->
  exists a, coordinates geometry = Some a /\ grows geojson (length (js_elements a)) ds ds'.
Proof.
  intros Hfresh. unfold processMultiPoint. destruct (coordinates geometry) as [a|]; [|done].
  intros Hrun. exists a. split; [done|]. rewrite <- sum_list_with_const.
  eapply forEach_grows; [|done|exact Hrun]. intros x ds1 ds2 _ Hfresh1.
  apply grows_of_run. apply createObject_then_grows; [done|]. intros k. preserve.
Qed.

Lemma processMultiLineString_grows geojson geometry crsFunction ds ds' :
  guidsFresh ds -> processMultiLineString geojson geometry crsFunction ds = (Ok tt, ds') ->
  exists a, coordinates geometry = Some a /\ grows geojson (length (js_elements a)) ds ds'.
Proof.
  intros Hfresh. unfold processMultiLineString.
  destruct (coordinates geometry) as [a|]; [|done].
  intros Hrun. exists a. split; [done|]. rewrite <- sum_list_with_const.
  eapply forEach_grows; [|done|exact Hrun]. intros x ds1 ds2 _ Hfresh1.
  apply grows_of_run. apply createObject_then_grows; [done|]. intros k. preserve.
Qed.

Lemma processMultiPolygon_grows geojson geometry crsFunction ds ds' :
  guidsFresh ds -> processMultiPolygon geojson geometry crsFunction ds = (Ok tt, ds') ->
  exists a, coordinates geometry = Some a /\ grows geojson (length (js_elements a)) ds ds'.
Proof.
  intros Hfresh. unfold processMultiPolygon.
  destruct (coordinates geometry) as [a|]; [|done].
  intros Hrun. exists a. split; [done|]. rewrite <- sum_list_with_const.
  eapply forEach_grows; [|done|exact Hrun]. intros x ds1 ds2 _ Hfresh1.
  apply grows_of_run. apply createObject_then_grows; [done|]. intros k. preserve.
Qed.

(** A handler that ends normally added as many objects as the geometry
    expands to, all referring to [geojson]. *)
Lemma geometryHandler_grows geometry :
  forall h geojson crsFunction ds ds',
    geometryTypes !! type geometry = Some h ->
    guidsFresh ds ->
    geometryHandler h geojson geometry crsFunction ds = (Ok tt, ds') ->
    grows geojson (expansionCount geometry) ds ds'.
Proof.
  induction geometry as [geometry IH] using GeoJson_geometries_ind.
  intros h geojson crsFunction ds ds' Hh Hfresh.
  rewrite expansionCount_unfold, Hh. destruct h; cbn [geometryHandler].
  - rewrite processGeometryCollection_unfold.
    destruct (geometries geometry) as [gs|]; [|done].
    apply forEach_grows; [|done]. intros x ds1 ds2 Hx Hfresh1.
    destruct (js_get geometryTypes (type x)) as [[hx|member]|] eqn:Hhx; [| |done].
    + apply js_get_Own in Hhx. specialize (IH gs eq_refl).
      rewrite Forall_forall in IH. by apply IH.
    + apply js_get_Inherited in Hhx as [Hnone _]. intros [= _ <-].
      rewrite expansionCount_unfold, Hnone. by apply grows_refl.
  - by apply processLineString_grows.
  - intros (a & -> & Hg)%processMultiLineString_grows; done.
  - intros (a & -> & Hg)%processMultiPoint_grows; done.
  - intros (a & -> & Hg)%processMultiPolygon_grows; done.
  - by apply processPoint_grows.
  - by apply processPolygon_grows.
Qed.

Lemma processFeature_grows feature crsFunction ds ds' :
  guidsFresh ds ->
  processFeature feature crsFunction ds = (Ok tt, ds') ->
  grows feature (featureExpansion feature) ds ds'.
Proof.
  intros Hfresh. unfold processFeature, featureExpansion.
  destruct (geometry feature) as [| |g]; [done| |].
  - apply grows_of_run. apply createObject_then_grows; [done|]. intros k. preserve.
  - destruct (js_get geometryTypes (type g)) as [[h|member]|] eqn:Hh; [| |done].
    + apply js_get_Own in Hh. by apply geometryHandler_grows.
    + apply js_get_Inherited in Hh as [Hnone _]. intros [= _ <-].
      rewrite expansionCount_unfold, Hnone. by apply grows_refl.
Qed.

(** ** load: arguments, dispatch and the CRS *)

(** What [load] does once the document type is found and [crsPromise]
    is there: the store is cleared, then the promise is waited for. *)
Lemma load_found R geoJson found ds :
  js_get geoJsonObjectTypes (type geoJson) = Some found ->
  load R (Some geoJson) ds
  = match crsPromise R geoJson with
    | Throw e => (Throw e, ds)
    | Ok promise =>
        then_ promise (fun crsFunction =>
                         invoke typeHandler found geoJson geoJson crsFunction;; raiseChanged)
              (with_collection ds [] [Clear])
    end.
Proof.
  intros Hh. unfold load. rewrite Hh. unfold bind, lift, clear.
  by destruct (crsPromise R geoJson).
Qed.

Lemma load_recognized R geoJson h ds :
  geoJsonObjectTypes !! type geoJson = Some h ->
  load R (Some geoJson) ds
  = match crsPromise R geoJson with
    | Throw e => (Throw e, ds)
    | Ok promise =>
        then_ promise (fun crsFunction =>
                         typeHandler h geoJson geoJson crsFunction;; raiseChanged)
              (with_collection ds [] [Clear])
    end.
Proof. intros Hh. by rewrite (load_found R geoJson (Own h)) by by apply js_get_own. Qed.

(** A call without a document throws "geoJson is required.", and a
    document whose type reads as [undefined] in [geoJsonObjectTypes]
    throws "Unsupported GeoJSON object type"; the data source is as
    before the call. *)
Lemma load_missing R ds : load R None ds = (Throw MissingArgument, ds).
Proof. done. Qed.

Lemma load_unsupported R geoJson ds :
  js_get geoJsonObjectTypes (type geoJson) = None ->
  load R (Some geoJson) ds = (Throw (UnsupportedDocumentType (type geoJson)), ds).
Proof. intros Hh. unfold load. by rewrite Hh. Qed.

(** For a crs of type "link", [properties.href] is read in
    [crsLinkHrefs] first and [properties.type] in [crsLinkTypes] only
    when that gives [undefined]; what was found is called with the
    properties, and when both reads give [undefined] the check throws
    "Unable to resolve crs link". *)
Lemma crsPromise_link R geoJson properties :
  crs geoJson = Defined {| crs_type := "link"; crs_properties := Defined properties |} ->
  crsPromise R geoJson
  = match js_get (crsLinkHrefs R) (js_key (props_href properties)) with
    | Some handler => linkHandler handler properties
    | None =>
        match js_get (crsLinkTypes R) (js_key (props_type properties)) with
        | Some handler => linkHandler handler properties
        | None => Throw (UnresolvableCrsLink properties)
        end
    end.
Proof.
  intros Hcrs. unfold crsPromise. rewrite Hcrs. cbn [crs_type crs_properties].
  rewrite decide_False by discriminate. rewrite decide_True by done.
  destruct (js_get (crsLinkHrefs R) (js_key (props_href properties))); [done|].
  by destruct (js_get (crsLinkTypes R) (js_key (props_type properties))).
Qed.

(** C1, as the code has it. For a document of a recognized type, a CRS
    check that fails in the call itself makes [load] throw that error
    and leaves the data source as it was. Once [crsPromise] exists the
    store is cleared at once, before the promise settles: the handlers
    run on the cleared store when it is fulfilled, and when it is
    rejected the promise returned is rejected with the same reason and
    the store stays cleared. *)
Theorem load_clears_before_settling R geoJson h ds :
  geoJsonObjectTypes !! type geoJson = Some h ->
  (forall e, crsPromise R geoJson = Throw e -> load R (Some geoJson) ds = (Throw e, ds)) /\
  (forall crsFunction,
      crsPromise R geoJson = Ok (Fulfilled crsFunction) ->
      load R (Some geoJson) ds
      = then_ (Fulfilled crsFunction)
              (fun crsFunction => typeHandler h geoJson geoJson crsFunction;; raiseChanged)
              (with_collection ds [] [Clear])) /\
  (forall e,
      crsPromise R geoJson = Ok (Rejected e) ->
      load R (Some geoJson) ds = (Ok (Rejected e), with_collection ds [] [Clear])) /\
  (crsPromise R geoJson = Ok Pending ->
   load R (Some geoJson) ds = (Ok Pending, with_collection ds [] [Clear])).
Proof.
  intros Hh. rewrite (load_recognized R geoJson h) by done.
  repeat split; intros; by rewrite H.
Qed.

(** ** Identity of the entities *)

(** The key of a [Feature] with an [id] is settled by the keys in use. *)
Lemma createObject_id_at geojson (s : string) n ds :
  type geojson = "Feature" -> id geojson = Some s ->
  Id (candidate s n) ∉ keys (_dynamicObjectCollection ds) ->
  (forall m, m < n -> Id (candidate s m) ∈ keys (_dynamicObjectCollection ds)) ->
  createObject geojson ds
  = (Ok (Id (candidate s n)), installed ds (Id (candidate s n)) geojson (guids ds)).
Proof.
  intros Ht Hid Hfree Hused.
  destruct (createObject_id geojson s ds Ht Hid) as (n' & Hrun & Hfree' & Hused').
  destruct (lt_eq_lt_dec n n') as [[Hlt|Heq]|Hlt]; [|by subst|].
  - by apply Hused' in Hlt.
  - by apply Hused in Hlt.
Qed.



Lemma guidsFresh_cleared ds : guidsFresh (with_collection ds [] [Clear]).
Proof. intros n Hn. by apply elem_of_nil in Hn. Qed.

Lemma geoJsonObjectTypes_Feature : geoJsonObjectTypes !! "Feature" = Some ProcessFeature.
Proof. reflexivity. Qed.

Lemma geoJsonObjectTypes_FeatureCollection :
  geoJsonObjectTypes !! "FeatureCollection" = Some ProcessFeatureCollection.
Proof. reflexivity. Qed.



(** ** Features without a geometry *)

(** C6. A feature whose [geometry] is [null] gives exactly one entity,
    without a position, without vertex positions and without graphics,
    and nothing is merged or assigned except the reference to the
    feature; a feature without a [geometry] member makes the handler
    throw "feature.geometry is required.", so the promise of [load] is
    rejected with it. *)
Theorem feature_null_or_missing_geometry R feature crsFunction ds :
  type feature = "Feature" ->
  crsPromise R feature = Ok (Fulfilled crsFunction) ->
  (geometry feature = Null ->
   exists k n,
     load R (Some feature) ds
     = (Ok (Fulfilled tt),
        with_collection (installed (with_collection ds [] [Clear]) k feature n)
                        [(k, created feature)] [Changed])) /\
  (geometry feature = Undefined ->
   load R (Some feature) ds = (Ok (Rejected MissingGeometry), with_collection ds [] [Clear])) /\
  (forall ds0,
      guidsFresh ds0 -> geometry feature = Null ->
      exists k n,
        processFeature feature crsFunction ds0 = (Ok tt, installed ds0 k feature n) /\
        k ∉ keys (_dynamicObjectCollection ds0)) /\
  (forall ds0,
      geometry feature = Undefined ->
      processFeature feature crsFunction ds0 = (Throw MissingGeometry, ds0)).
Proof.
  intros Ht Hcrs.
  assert (Hnull : forall ds0, guidsFresh ds0 -> geometry feature = Null ->
            exists k n, processFeature feature crsFunction ds0
                        = (Ok tt, installed ds0 k feature n) /\
                        k ∉ keys (_dynamicObjectCollection ds0)).
  { intros ds0 Hfresh Hg. unfold processFeature. rewrite Hg.
    destruct (createObject_new feature ds0 Hfresh) as (k & n & Hrun & Hk & _).
    exists k, n. split; [|done]. unfold bind. by rewrite Hrun. }
  assert (Hmissing : forall ds0, geometry feature = Undefined ->
            processFeature feature crsFunction ds0 = (Throw MissingGeometry, ds0)).
  { intros ds0 Hg. unfold processFeature. by rewrite Hg. }
  assert (Hh : geoJsonObjectTypes !! type feature = Some ProcessFeature).
  { rewrite Ht. apply geoJsonObjectTypes_Feature. }
  rewrite (load_recognized R feature ProcessFeature ds Hh), Hcrs.
  unfold then_, bind. cbn [typeHandler].
  split; [|split; [|split; [exact Hnull | exact Hmissing]]].
  - intros Hg.
    destruct (Hnull (with_collection ds [] [Clear]) (guidsFresh_cleared ds) Hg)
      as (k & n & Hrun & _).
    exists k, n. by rewrite Hrun.
  - intros Hg. by rewrite Hmissing.
Qed.

(** ** Empty coordinate arrays *)

Lemma assign_extended ds k o n h f e :
  k ∉ keys (_dynamicObjectCollection ds) ->
  assign k f e (extended ds k o n h) = (Ok tt, extended ds k (f o) n (h ++ [e])).
Proof.
  intros Hk. unfold assign, extended, with_collection.
  cbn [_dynamicObjectCollection defaultPoint defaultLine defaultPolygon guids history].
  by rewrite update_app_new, <- app_assoc.
Qed.

Lemma processLineString_empty geojson geometry crsFunction ds :
  guidsFresh ds -> coordinates geometry = Some (Arr []) ->
  exists k n,
    processLineString geojson geometry crsFunction ds
    = (Ok tt, extended ds k (decoded geojson (defaultLine ds) None (Some [])) n
                [Create k; SetGeoJson k; Merge k; SetVertexPositions k]).
Proof.
  intros Hfresh Hc.
  destruct (createObject_new geojson ds Hfresh) as (k & n & Hrun & Hk & _).
  exists k, n. unfold processLineString. unfold bind at 1. rewrite Hrun, Hc.
  unfold bind, lift, mergeStyle, setVertexPositions, installed. cbn [transformArray js_length js_elements transformEach].
  rewrite assign_extended by done. by rewrite assign_extended by done.
Qed.

Lemma processPoint_run geojson geometry crsFunction p ds :
  guidsFresh ds -> crsFunction (coordinates geometry) = Ok p ->
  exists k n,
    processPoint geojson geometry crsFunction ds
    = (Ok tt, extended ds k (decoded geojson (defaultPoint ds) (Some p) None) n
                [Create k; SetGeoJson k; Merge k; SetPosition k]).
Proof.
  intros Hfresh Hp.
  destruct (createObject_new geojson ds Hfresh) as (k & n & Hrun & Hk & _).
  exists k, n. unfold processPoint. unfold bind at 1. rewrite Hrun, Hp.
  unfold bind, lift, mergeStyle, setPosition, installed.
  rewrite assign_extended by done. by rewrite assign_extended by done.
Qed.

Lemma processPolygon_no_ring geojson geometry crsFunction ds :
  guidsFresh ds -> coordinates geometry = Some (Arr []) ->
  exists k n,
    processPolygon geojson geometry crsFunction ds = (Throw TypeError, installed ds k geojson n).
Proof.
  intros Hfresh Hc.
  destruct (createObject_new geojson ds Hfresh) as (k & n & Hrun & Hk & _).
  exists k, n. unfold processPolygon. unfold bind at 1. by rewrite Hrun, Hc.
Qed.

Lemma processPolygon_empty_ring geojson geometry crsFunction rings ds :
  guidsFresh ds -> coordinates geometry = Some (Arr (Arr [] :: rings)) ->
  exists k n,
    processPolygon geojson geometry crsFunction ds
    = (Ok tt, extended ds k (decoded geojson (defaultPolygon ds) None (Some [])) n
                [Create k; SetGeoJson k; Merge k; SetVertexPositions k]).
Proof.
  intros Hfresh Hc.
  destruct (createObject_new geojson ds Hfresh) as (k & n & Hrun & Hk & _).
  exists k, n. unfold processPolygon. unfold bind at 1. rewrite Hrun, Hc.
  cbn [js_index lookup list_lookup].
  unfold bind, lift, mergeStyle, setVertexPositions, installed. cbn [transformArray js_length js_elements transformEach].
  rewrite assign_extended by done. by rewrite assign_extended by done.
Qed.

(** C3, as the code has it. With [coordinates] the empty array: the
    three multi-geometries give no entity and leave the data source as
    it is. In a store where the identifiers of [createGuid] are unused,
    [LineString] gives one entity with an empty list of vertex positions;
    [Point] gives one entity whose position is what the transform makes
    of the empty array, when it makes something of it; [Polygon] creates
    its entity and then throws a [TypeError], because there is no outer
    ring to take the length of. A [Polygon] whose outer ring is the
    empty array gives one entity with an empty list of vertex positions. *)
Theorem empty_coordinates geojson geometry geometry' crsFunction ds :
  coordinates geometry = Some (Arr []) ->
  coordinates geometry' = Some (Arr [Arr []]) ->
  (guidsFresh ds ->
   (exists k n,
       processLineString geojson geometry crsFunction ds
       = (Ok tt, extended ds k (decoded geojson (defaultLine ds) None (Some [])) n
                   [Create k; SetGeoJson k; Merge k; SetVertexPositions k])) /\
   (forall p,
       crsFunction (Some (Arr [])) = Ok p ->
       exists k n,
         processPoint geojson geometry crsFunction ds
         = (Ok tt, extended ds k (decoded geojson (defaultPoint ds) (Some p) None) n
                     [Create k; SetGeoJson k; Merge k; SetPosition k])) /\
   (exists k n,
       processPolygon geojson geometry crsFunction ds
       = (Throw TypeError, installed ds k geojson n)) /\
   (exists k n,
       processPolygon geojson geometry' crsFunction ds
       = (Ok tt, extended ds k (decoded geojson (defaultPolygon ds) None (Some [])) n
                   [Create k; SetGeoJson k; Merge k; SetVertexPositions k]))) /\
  processMultiPoint geojson geometry crsFunction ds = (Ok tt, ds) /\
  processMultiLineString geojson geometry crsFunction ds = (Ok tt, ds) /\
  processMultiPolygon geojson geometry crsFunction ds = (Ok tt, ds).
Proof.
  intros Hc Hc'. split.
  - intros Hfresh.
    split; [by apply processLineString_empty|].
    split; [intros p Hp; apply processPoint_run; [done | by rewrite Hc]|].
    split; [by apply processPolygon_no_ring|].
    by apply (processPolygon_empty_ring _ _ _ []).
  - unfold processMultiPoint, processMultiLineString, processMultiPolygon. by rewrite Hc.
Qed.

(** ** Feature collections *)

Lemma processFeatures_segments crsFunction fs ds ds' :
  guidsFresh ds ->
  forEach (fun feature => processFeature feature crsFunction) fs ds = (Ok tt, ds') ->
  exists segs,
    _dynamicObjectCollection ds' = _dynamicObjectCollection ds ++ concat segs /\
    Forall2 entitiesOf fs segs /\
    guidsFresh ds'.
Proof.
  revert ds. induction fs as [|f fs IH]; intros ds Hfresh; cbn [forEach].
  - intros [= <-]. exists []. by rewrite app_nil_r.
  - unfold bind. destruct (processFeature f crsFunction ds) as [[[]|e] ds1] eqn:Hf; [|done].
    intros Hrun. apply processFeature_grows in Hf as (seg & Hc & Hlen & Hrefs & Hfresh1); [|done].
    destruct (IH ds1 Hfresh1 Hrun) as (segs & Hc' & Hsegs & Hfresh').
    exists (seg :: segs). rewrite Hc', Hc, <- app_assoc. split; [done|].
    split; [|done]. by constructor.
Qed.

Lemma length_segments fs (segs : list Collection) :
  Forall2 entitiesOf fs segs -> length (concat segs) = sum_list_with featureExpansion fs.
Proof.
  induction 1 as [|f seg fs segs [Hlen _] _ IH]; cbn; [done|].
  rewrite length_app. congruence.
Qed.

(** C5. On a [FeatureCollection], [load] runs [processFeature] on the
    elements of [features] from the first to the last. When the promise is
    fulfilled, the store consists of the entities of the first feature,
    then those of the second, and so on; each feature has as many entities
    as its geometry expands to, so the store has the sum of these numbers. *)
Theorem load_featureCollection R featureCollection fs ds ds' :
  type featureCollection = "FeatureCollection" ->
  features featureCollection = Some fs ->
  load R (Some featureCollection) ds = (Ok (Fulfilled tt), ds') ->
  (forall crsFunction,
      typeHandler ProcessFeatureCollection featureCollection featureCollection crsFunction
      = forEach (fun feature => processFeature feature crsFunction) fs) /\
  (exists segs,
      _dynamicObjectCollection ds' = concat segs /\ Forall2 entitiesOf fs segs) /\
  length (_dynamicObjectCollection ds') = sum_list_with featureExpansion fs.
Proof.
  intros Ht Hfs Hload.
  assert (Hh : geoJsonObjectTypes !! type featureCollection = Some ProcessFeatureCollection).
  { rewrite Ht. apply geoJsonObjectTypes_FeatureCollection. }
  assert (Hcall : forall crsFunction,
             typeHandler ProcessFeatureCollection featureCollection featureCollection
                         crsFunction
             = forEach (fun feature => processFeature feature crsFunction) fs).
  { intros crsFunction. cbn [typeHandler]. unfold processFeatureCollection. by rewrite Hfs. }
  split; [exact Hcall|].
  rewrite (load_recognized R _ _ ds Hh) in Hload.
  destruct (crsPromise R featureCollection) as [[crsFunction|e| |]|e]; [|done..].
  unfold then_, bind in Hload. rewrite Hcall in Hload.
  destruct (forEach _ fs (with_collection ds [] [Clear])) as [[[]|e] ds1] eqn:Hrun; [|done].
  apply processFeatures_segments in Hrun as (segs & Hc & Hsegs & _);
    [|apply guidsFresh_cleared].
  cbn in Hload. injection Hload as <-. cbn in Hc |- *.
  split; [by exists segs|]. rewrite Hc. by apply length_segments.
Qed.

(** ** Documents that differ in their crs member only *)

Lemma forgetDataSource_inv ds1 ds2 :
  forgetDataSource ds1 = forgetDataSource ds2 ->
  forgetEntry <$> _dynamicObjectCollection ds1 = forgetEntry <$> _dynamicObjectCollection ds2 /\
  defaultPoint ds1 = defaultPoint ds2 /\ defaultLine ds1 = defaultLine ds2 /\
  defaultPolygon ds1 = defaultPolygon ds2 /\ guids ds1 = guids ds2 /\
  history ds1 = history ds2.
Proof. unfold forgetDataSource. intros [=]. done. Qed.

Lemma keys_forget c1 c2 : forgetEntry <$> c1 = forgetEntry <$> c2 -> keys c1 = keys c2.
Proof.
  intros H. unfold keys.
  assert (Hfst : forall c, c.*1 = (forgetEntry <$> c).*1).
  { intros c. rewrite <- list_fmap_compose. by apply list_fmap_ext. }
  by rewrite (Hfst c1), (Hfst c2), H.
Qed.

Lemma getObject_keys c1 c2 k :
  keys c1 = keys c2 ->
  match getObject c1 k, getObject c2 k with
  | Some _, Some _ | None, None => True
  | _, _ => False
  end.
Proof.
  intros Hkeys.
  destruct (getObject c1 k) eqn:E1, (getObject c2 k) eqn:E2; try done.
  - apply getObject_None in E2. rewrite <- Hkeys in E2.
    apply getObject_None in E2. congruence.
  - apply getObject_None in E1. rewrite Hkeys in E1.
    apply getObject_None in E1. congruence.
Qed.

Lemma whileTaken_keys fuel c1 c2 (s : string) i (f : string) :
  keys c1 = keys c2 -> whileTaken fuel c1 s i f = whileTaken fuel c2 s i f.
Proof.
  intros Hkeys. revert i f. induction fuel as [|fuel IH]; intros i f; cbn [whileTaken];
    pose proof (getObject_keys c1 c2 (Id f) Hkeys) as H;
    destruct (getObject c1 (Id f)), (getObject c2 (Id f)); done.
Qed.

Lemma update_forget c1 c2 k f1 f2 :
  (forall o1 o2, forgetObject o1 = forgetObject o2 -> forgetObject (f1 o1) = forgetObject (f2 o2)) ->
  forgetEntry <$> c1 = forgetEntry <$> c2 ->
  forgetEntry <$> update c1 k f1 = forgetEntry <$> update c2 k f2.
Proof.
  intros Hf. revert c2. induction c1 as [|[k1 o1] c1 IH]; intros [|[k2 o2] c2]; csimpl;
    try done.
  unfold forgetEntry at 1 3. cbn [fst snd]. intros Heq.
  assert (k1 = k2) as -> by congruence.
  assert (Ho : forgetObject o1 = forgetObject o2) by congruence.
  assert (Hc : forgetEntry <$> c1 = forgetEntry <$> c2) by congruence.
  destruct (decide (k2 = k)); csimpl; unfold forgetEntry at 1 3; cbn [fst snd].
  - by rewrite (Hf o1 o2 Ho), Hc.
  - by rewrite Ho, (IH c2 Hc).
Qed.

Lemma alike_ret {A} (a : A) : alike (ret a) (ret a).
Proof. intros ds1 ds2 H. unfold forget, ret. cbn. by rewrite H. Qed.

Lemma alike_throw {A} e : alike (throw (A := A) e) (throw e).
Proof. intros ds1 ds2 H. unfold forget, throw. cbn. by rewrite H. Qed.

Lemma alike_lift {A} (r : Result A) : alike (lift r) (lift r).
Proof. intros ds1 ds2 H. unfold forget, lift. cbn. by rewrite H. Qed.

Lemma alike_bind {A B} (m1 m2 : M A) (f1 f2 : A -> M B) :
  alike m1 m2 -> (forall a, alike (f1 a) (f2 a)) -> alike (bind m1 f1) (bind m2 f2).
Proof.
  intros Hm Hf ds1 ds2 H. specialize (Hm ds1 ds2 H). unfold bind.
  destruct (m1 ds1) as [r1 d1], (m2 ds2) as [r2 d2].
  unfold forget in Hm. cbn [fst snd] in Hm.
  assert (r1 = r2) as -> by congruence.
  assert (Hd : forgetDataSource d1 = forgetDataSource d2) by congruence.
  destruct r2 as [a|e]; [by apply Hf|]. unfold forget. cbn [fst snd]. by rewrite Hd.
Qed.

Lemma alike_forEach {A} (body1 body2 : A -> M unit) l :
  (forall x, alike (body1 x) (body2 x)) -> alike (forEach body1 l) (forEach body2 l).
Proof.
  intros Hbody. induction l as [|x l IH]; cbn [forEach].
  - apply alike_ret.
  - apply alike_bind; [apply Hbody | intros _; apply IH].
Qed.

Lemma alike_createGuid : alike createGuid createGuid.
Proof.
  intros ds1 ds2 H. apply forgetDataSource_inv in H as (Hc & Hp & Hl & Hg & Hn & Hh).
  unfold forget, createGuid, forgetDataSource. cbn. by rewrite Hc, Hp, Hl, Hg, Hn, Hh.
Qed.

Lemma alike_finalId (s : string) : alike (finalId s) (finalId s).
Proof.
  intros ds1 ds2 H. pose proof H as (Hc & _)%forgetDataSource_inv.
  apply keys_forget in Hc as Hkeys. unfold finalId.
  assert (length (_dynamicObjectCollection ds1) = length (_dynamicObjectCollection ds2)) as ->.
  { apply (f_equal length) in Hc. by rewrite !length_fmap in Hc. }
  rewrite (whileTaken_keys _ _ _ s 2 s Hkeys).
  destruct (whileTaken _ _ s 2 s); unfold forget; cbn; by rewrite H.
Qed.

Lemma alike_getOrCreate k : alike (getOrCreate k) (getOrCreate k).
Proof.
  intros ds1 ds2 H. apply forgetDataSource_inv in H as (Hc & Hp & Hl & Hg & Hn & Hh).
  apply keys_forget in Hc as Hkeys.
  pose proof (getObject_keys _ _ k Hkeys) as Hget.
  unfold forget, getOrCreate, getOrCreateObject, forgetDataSource, with_collection. cbn.
  destruct (getObject (_dynamicObjectCollection ds1) k),
           (getObject (_dynamicObjectCollection ds2) k); try done.
  - by rewrite Hc, Hp, Hl, Hg, Hn, Hh.
  - by rewrite !fmap_app, Hc, Hp, Hl, Hg, Hn, Hh.
Qed.

Lemma alike_assign k f1 f2 e :
  (forall o1 o2, forgetObject o1 = forgetObject o2 -> forgetObject (f1 o1) = forgetObject (f2 o2)) ->
  alike (assign k f1 e) (assign k f2 e).
Proof.
  intros Hf ds1 ds2 H. apply forgetDataSource_inv in H as (Hc & Hp & Hl & Hg & Hn & Hh).
  unfold forget, assign, forgetDataSource, with_collection. cbn.
  by rewrite (update_forget _ _ k f1 f2 Hf Hc), Hp, Hl, Hg, Hn, Hh.
Qed.

Lemma forgetObject_fields o1 o2 :
  forgetObject o1 = forgetObject o2 ->
  forgetCrs <$> geoJson o1 = forgetCrs <$> geoJson o2 /\ graphics o1 = graphics o2 /\
  position o1 = position o2 /\ vertexPositions o1 = vertexPositions o2.
Proof. unfold forgetObject. intros [=]. done. Qed.

Lemma alike_setGeoJson k g1 g2 :
  forgetCrs g1 = forgetCrs g2 -> alike (setGeoJson k g1) (setGeoJson k g2).
Proof.
  intros Hg. apply alike_assign. intros o1 o2 (_ & Hgr & Hp & Hv)%forgetObject_fields.
  unfold forgetObject. cbn. by rewrite Hg, Hgr, Hp, Hv.
Qed.

Lemma alike_setPosition k p : alike (setPosition k p) (setPosition k p).
Proof.
  apply alike_assign. intros o1 o2 (Hg & Hgr & Hp & Hv)%forgetObject_fields.
  unfold forgetObject. cbn. by rewrite Hg, Hgr, Hv.
Qed.

Lemma alike_setVertexPositions k ps :
  alike (setVertexPositions k ps) (setVertexPositions k ps).
Proof.
  apply alike_assign. intros o1 o2 (Hg & Hgr & Hp & Hv)%forgetObject_fields.
  unfold forgetObject. cbn. by rewrite Hg, Hgr, Hp.
Qed.

Lemma alike_mergeStyle k (template : DataSource -> Style) :
  (forall ds1 ds2, forgetDataSource ds1 = forgetDataSource ds2 -> template ds1 = template ds2) ->
  alike (mergeStyle k template) (mergeStyle k template).
Proof.
  intros Ht ds1 ds2 H. unfold mergeStyle. rewrite (Ht ds1 ds2 H).
  apply alike_assign; [|done]. intros o1 o2 (Hg & Hgr & Hp & Hv)%forgetObject_fields.
  unfold forgetObject, merge. cbn. by rewrite Hg, Hgr, Hp, Hv.
Qed.

Lemma forgetCrs_fields g1 g2 :
  forgetCrs g1 = forgetCrs g2 -> type g1 = type g2 /\ id g1 = id g2.
Proof. unfold forgetCrs, withCrs. intros [=]. done. Qed.

Lemma alike_createObject g1 g2 :
  forgetCrs g1 = forgetCrs g2 -> alike (createObject g1) (createObject g2).
Proof.
  intros Hg. pose proof (forgetCrs_fields g1 g2 Hg) as [Ht Hid]. unfold createObject.
  rewrite Ht, Hid. apply alike_bind.
  - destruct (id g2); [destruct (decide _)|];
      first [apply alike_finalId | apply alike_createGuid].
  - intros k. apply alike_bind; [apply alike_getOrCreate|]. intros _.
    apply alike_bind; [by apply alike_setGeoJson|]. intros _. apply alike_ret.
Qed.

Ltac alike :=
  repeat first
    [ apply alike_ret | apply alike_throw | apply alike_lift
    | apply alike_createObject; assumption
    | apply alike_setPosition | apply alike_setVertexPositions
    | apply alike_mergeStyle; intros ? ? (? & ? & ? & ? & ? & ?)%forgetDataSource_inv; assumption
    | apply alike_bind; [|intros ?]
    | apply alike_forEach; intros ?
    | match goal with
      | |- alike (match ?x with _ => _ end) (match ?x with _ => _ end) => destruct x
      end ].

(** The handlers do not read the [crs] member of the object the entities
    refer to. *)
Lemma alike_geometryHandler geometry :
  forall h g1 g2 crsFunction,
    forgetCrs g1 = forgetCrs g2 ->
    alike (geometryHandler h g1 geometry crsFunction)
          (geometryHandler h g2 geometry crsFunction).
Proof.
  induction geometry as [geometry IH] using GeoJson_geometries_ind.
  intros h g1 g2 crsFunction Hg. destruct h; cbn [geometryHandler].
  - rewrite !processGeometryCollection_unfold.
    destruct (geometries geometry) as [gs|] eqn:Hgs; [|apply alike_throw].
    specialize (IH gs eq_refl). clear Hgs. induction IH as [|x gs Hx _ IHgs]; cbn [forEach].
    + apply alike_ret.
    + apply alike_bind; [|intros _; apply IHgs].
      destruct (js_get geometryTypes (type x)) as [[hx|member]|];
        [by apply Hx | apply alike_lift | apply alike_throw].
  - unfold processLineString. alike.
  - unfold processMultiLineString. alike.
  - unfold processMultiPoint. alike.
  - unfold processMultiPolygon. alike.
  - unfold processPoint. alike.
  - unfold processPolygon. alike.
Qed.

Lemma alike_raiseChanged : alike raiseChanged raiseChanged.
Proof.
  intros ds1 ds2 H. apply forgetDataSource_inv in H as (Hc & Hp & Hl & Hg & Hn & Hh).
  unfold forget, raiseChanged, forgetDataSource, with_collection. cbn.
  by rewrite Hc, Hp, Hl, Hg, Hn, Hh.
Qed.

Lemma alike_processFeature f1 f2 crsFunction :
  forgetCrs f1 = forgetCrs f2 ->
  alike (processFeature f1 crsFunction) (processFeature f2 crsFunction).
Proof.
  intros Hf. unfold processFeature.
  assert (geometry f1 = geometry f2) as ->.
  { unfold forgetCrs, withCrs in Hf. congruence. }
  destruct (geometry f2) as [| |g]; [apply alike_throw | alike |].
  destruct (js_get geometryTypes (type g)) as [[h|member]|];
    [by apply alike_geometryHandler | apply alike_lift | apply alike_throw].
Qed.

Lemma geometryHandler_withCrs h geojson geometry (f : Field Crs) crsFunction :
  geometryHandler h geojson (withCrs geometry f) crsFunction
  = geometryHandler h geojson geometry crsFunction.
Proof.
  destruct h; cbn [geometryHandler]; [|reflexivity..].
  by rewrite !processGeometryCollection_unfold.
Qed.

Lemma alike_typeHandler h g (c1 c2 : Field Crs) crsFunction :
  alike (typeHandler h (withCrs g c1) (withCrs g c1) crsFunction)
        (typeHandler h (withCrs g c2) (withCrs g c2) crsFunction).
Proof.
  destruct h as [| |h]; cbn [typeHandler].
  - by apply alike_processFeature.
  - unfold processFeatureCollection. cbn [features withCrs].
    destruct (features g); [|apply alike_throw].
    apply alike_forEach. intros f. by apply alike_processFeature.
  - rewrite !geometryHandler_withCrs. by apply alike_geometryHandler.
Qed.

(** A crs name bound to the default transform gives what the document
    without [crs] gives. *)
Lemma load_named_default R (name : string) g ds :
  crsNames R !! name = Some defaultCrsFunction ->
  crsPromise R (withCrs g (namedCrs name)) = Ok (Fulfilled defaultCrsFunction) /\
  crsPromise R (withCrs g Undefined) = Ok (Fulfilled defaultCrsFunction) /\
  forget (load R (Some (withCrs g (namedCrs name))) ds)
  = forget (load R (Some (withCrs g Undefined)) ds).
Proof.
  intros Hname.
  assert (H1 : crsPromise R (withCrs g (namedCrs name)) = Ok (Fulfilled defaultCrsFunction)).
  { unfold crsPromise. cbn. by rewrite (js_get_own _ _ _ Hname). }
  assert (H2 : crsPromise R (withCrs g Undefined) = Ok (Fulfilled defaultCrsFunction)) by done.
  split; [done|]. split; [done|].
  destruct (js_get geoJsonObjectTypes (type g)) as [found|] eqn:Hh.
  - rewrite (load_found R (withCrs g (namedCrs name)) found) by done.
    rewrite (load_found R (withCrs g Undefined) found) by done.
    rewrite H1, H2. unfold then_.
    assert (Hrun : alike
      (invoke typeHandler found (withCrs g (namedCrs name)) (withCrs g (namedCrs name))
              defaultCrsFunction;; raiseChanged)
      (invoke typeHandler found (withCrs g Undefined) (withCrs g Undefined)
              defaultCrsFunction;; raiseChanged)).
    { apply alike_bind; [|intros _; apply alike_raiseChanged].
      destruct found as [h|member]; [apply alike_typeHandler | apply alike_lift]. }
    specialize (Hrun (with_collection ds [] [Clear]) (with_collection ds [] [Clear]) eq_refl).
    destruct (bind _ _ _) as [r1 d1], (bind _ _ _) as [r2 d2].
    unfold forget in *. cbn [fst snd] in *.
    assert (r1 = r2) as -> by congruence.
    assert (Hd : forgetDataSource d1 = forgetDataSource d2) by congruence.
    destruct r2; cbn [fst snd]; by rewrite Hd.
  - unfold load. cbn [type withCrs]. by rewrite Hh.
Qed.

(** C9. With "urn:ogc:def:crs:OGC:1.3:CRS84" bound to the default
    transform, as it is in the table of the source, a document that names
    this crs and the same document without [crs] both get
    [defaultCrsFunction], and [load] ends alike on both: the same promise,
    and the same keys, graphics, positions, identifiers and history; the
    reference of an entity to its GeoJSON object points into the
    respective document, and is the same once the [crs] member is left
    out. *)
Theorem load_crs84_same_as_no_crs R g ds :
  crsNames R !! "urn:ogc:def:crs:OGC:1.3:CRS84" = Some defaultCrsFunction ->
  crsPromise R (withCrs g (namedCrs "urn:ogc:def:crs:OGC:1.3:CRS84"))
  = Ok (Fulfilled defaultCrsFunction) /\
  crsPromise R (withCrs g Undefined) = Ok (Fulfilled defaultCrsFunction) /\
  forget (load R (Some (withCrs g (namedCrs "urn:ogc:def:crs:OGC:1.3:CRS84"))) ds)
  = forget (load R (Some (withCrs g Undefined)) ds).
Proof. apply load_named_default. Qed.

(** C10. The table [crsNames] of the source has "EPSG:4326" next to
    "urn:ogc:def:crs:OGC:1.3:CRS84", both bound to [defaultCrsFunction];
    so with this table [load] ends on a document naming "EPSG:4326" as it
    does on the same document without [crs] (references to the GeoJSON
    objects compared with [crs] left out). *)
Theorem load_epsg4326_same_as_no_crs g ds :
  crsNames initialRegistry !! "EPSG:4326" = Some defaultCrsFunction /\
  crsNames initialRegistry !! "urn:ogc:def:crs:OGC:1.3:CRS84" = Some defaultCrsFunction /\
  crsPromise initialRegistry (withCrs g (namedCrs "EPSG:4326"))
  = Ok (Fulfilled defaultCrsFunction) /\
  forget (load initialRegistry (Some (withCrs g (namedCrs "EPSG:4326"))) ds)
  = forget (load initialRegistry (Some (withCrs g Undefined)) ds).
Proof.
  assert (H : crsNames initialRegistry !! "EPSG:4326" = Some defaultCrsFunction)
    by reflexivity.
  split; [done|]. split; [reflexivity|].
  destruct (load_named_default initialRegistry "EPSG:4326" g ds H) as (H1 & _ & H3). done.
Qed.

(** * Further properties of the code *)

(** ** What load leaves when it throws, and what it records *)

(** [load] throws before it clears the store, with one exception: the
    [TypeError] of the call of [then] on a [crsPromise] that is no
    promise, which comes after the clear. *)
Lemma load_throws R geoJson e ds ds' :
  load R geoJson ds = (Throw e, ds') ->
  ds' = ds \/
  exists g, geoJson = Some g /\ crsPromise R g = Ok NoPromise /\
            e = TypeError /\ ds' = with_collection ds [] [Clear].
Proof.
  unfold load. destruct geoJson as [g|]; [|intros [=]; by left].
  destruct (js_get geoJsonObjectTypes (type g)) as [found|]; [|intros [=]; by left].
  unfold bind, lift, clear, then_.
  destruct (crsPromise R g) as [[f|e0| |]|e0] eqn:Hcrs;
    [|by intros [=]..| |intros [=]; by left].
  - unfold raiseChanged.
    by destruct (invoke typeHandler found g g f (with_collection ds [] [Clear]))
      as [[[]|e1] ds1].
  - intros [= <- <-]. right. by exists g.
Qed.

(** X1. When [load] throws, the data source is exactly as before the
    call (no document, unsupported type, any of the CRS errors, a
    resolver that throws: every such [throw] comes before [clear], and
    an exception of a handler rejects the promise instead), with one
    exception: when what stands for the CRS promise is no promise, the
    call of [then] throws a [TypeError] after the store was cleared. *)
Theorem load_throw_untouched R geoJson e ds ds' :
  load R geoJson ds = (Throw e, ds') ->
  (ds' = ds \/
   exists g, geoJson = Some g /\ crsPromise R g = Ok NoPromise /\
             e = TypeError /\ ds' = with_collection ds [] [Clear]) /\
  (forall g found,
      js_get geoJsonObjectTypes (type g) = Some found ->
      crsPromise R g = Ok NoPromise ->
      load R (Some g) ds = (Throw TypeError, with_collection ds [] [Clear])).
Proof.
  intros Hload. split; [by apply (load_throws R geoJson)|].
  intros g found Hfound Hcrs. by rewrite (load_found R g found), Hcrs.
Qed.

Lemma entityHistory_refl ds : entityHistory (history ds) ds.
Proof. exists []. by rewrite app_nil_r. Qed.

Lemma entityHistory_with_collection h0 ds c l :
  entityHistory h0 ds -> Forall (fun e => isEntityEffect e = true) l ->
  entityHistory h0 (with_collection ds c l).
Proof.
  intros (h & Hh & Hall) Hl. exists (h ++ l). cbn. rewrite Hh, <- app_assoc.
  split; [done | by apply Forall_app].
Qed.

Lemma entityHistory_assign h0 k f e :
  isEntityEffect e = true -> preserves (entityHistory h0) (assign k f e).
Proof.
  intros He ds Hds. apply entityHistory_with_collection; [done|].
  by apply Forall_singleton.
Qed.

Lemma entityHistory_createObject h0 geojson :
  preserves (entityHistory h0) (createObject geojson).
Proof.
  unfold createObject. apply preserves_bind.
  - destruct (id geojson) as [s|]; [destruct (decide _)|].
    + intros ds Hds. unfold finalId. by destruct (whileTaken _ _ _ _ _).
    + by intros ds Hds.
    + by intros ds Hds.
  - intros k. apply preserves_bind.
    + intros ds Hds. apply entityHistory_with_collection; [done|].
      destruct (getObject _ k); [done | by apply Forall_singleton].
    + intros _. apply preserves_bind; [by apply entityHistory_assign|].
      intros _. apply preserves_ret.
Qed.

Lemma entityHistory_mergeStyle h0 k template :
  preserves (entityHistory h0) (mergeStyle k template).
Proof. intros ds Hds. unfold mergeStyle. by apply entityHistory_assign. Qed.

Ltac preserve_history :=
  repeat first
    [ apply preserves_ret | apply preserves_throw | apply preserves_lift
    | apply entityHistory_createObject
    | apply entityHistory_mergeStyle
    | apply entityHistory_assign; reflexivity
    | apply preserves_bind; [|intros ?]
    | apply preserves_forEach; intros ?
    | match goal with
      | |- preserves _ (match ?x with _ => _ end) => destruct x
      end ].

Lemma entityHistory_geometryHandler geometry :
  forall h0 h geojson crsFunction,
    preserves (entityHistory h0) (geometryHandler h geojson geometry crsFunction).
Proof.
  induction geometry as [geometry IH] using GeoJson_geometries_ind.
  intros h0 h geojson crsFunction. destruct h; cbn [geometryHandler].
  - rewrite processGeometryCollection_unfold.
    destruct (geometries geometry) as [gs|] eqn:Hgs; [|apply preserves_throw].
    specialize (IH gs eq_refl). clear Hgs. induction IH as [|x gs Hx _ IHgs]; cbn [forEach].
    + apply preserves_ret.
    + apply preserves_bind; [|intros _; apply IHgs].
      destruct (js_get geometryTypes (type x)) as [[hx|member]|];
        [apply Hx | apply preserves_lift | apply preserves_throw].
  - unfold processLineString. preserve_history.
  - unfold processMultiLineString. preserve_history.
  - unfold processMultiPoint. preserve_history.
  - unfold processMultiPolygon. preserve_history.
  - unfold processPoint. preserve_history.
  - unfold processPolygon. preserve_history.
Qed.

Lemma entityHistory_processFeature h0 feature crsFunction :
  preserves (entityHistory h0) (processFeature feature crsFunction).
Proof.
  unfold processFeature. destruct (geometry feature) as [| |g]; [preserve_history..|].
  destruct (js_get geometryTypes (type g)) as [[h|member]|];
    [apply entityHistory_geometryHandler | apply preserves_lift | apply preserves_throw].
Qed.

Lemma entityHistory_typeHandler h0 h geojson geometry crsFunction :
  preserves (entityHistory h0) (typeHandler h geojson geometry crsFunction).
Proof.
  destruct h; cbn [typeHandler].
  - apply entityHistory_processFeature.
  - unfold processFeatureCollection. destruct (features geojson); [|apply preserves_throw].
    apply preserves_forEach. intros f. apply entityHistory_processFeature.
  - apply entityHistory_geometryHandler.
Qed.

Lemma entityHistory_invoke h0 found geojson geometry crsFunction :
  preserves (entityHistory h0) (invoke typeHandler found geojson geometry crsFunction).
Proof.
  destruct found; [apply entityHistory_typeHandler | apply preserves_lift].
Qed.

(** What [load] has done when it returned the promise [p] and [p] has
    settled. *)
Lemma load_returns R geoJson p ds ds' :
  load R geoJson ds = (Ok p, ds') ->
  exists g found,
    geoJson = Some g /\ js_get geoJsonObjectTypes (type g) = Some found /\
    match crsPromise R g with
    | Ok (Fulfilled crsFunction) =>
        match invoke typeHandler found g g crsFunction (with_collection ds [] [Clear]) with
        | (Ok _, ds1) =>
            p = Fulfilled tt /\ ds' = with_collection ds1 (_dynamicObjectCollection ds1) [Changed]
        | (Throw e, ds1) => p = Rejected e /\ ds' = ds1
        end
    | Ok (Rejected e) => p = Rejected e /\ ds' = with_collection ds [] [Clear]
    | Ok Pending => p = Pending /\ ds' = with_collection ds [] [Clear]
    | Ok NoPromise => False
    | Throw _ => False
    end.
Proof.
  unfold load. destruct geoJson as [g|]; [|by intros [=]].
  destruct (js_get geoJsonObjectTypes (type g)) as [found|] eqn:Hh; [|by intros [=]].
  intros Hload. exists g, found. split; [done|]. split; [done|]. revert Hload.
  unfold bind, lift, clear, then_, raiseChanged.
  destruct (crsPromise R g) as [[f|e0| |]|e0];
    [|by intros [= <- <-]..|by intros [=]|by intros [=]].
  destruct (invoke typeHandler found g g f (with_collection ds [] [Clear])) as [[[]|e1] ds1];
    by intros [= <- <-].
Qed.

(** X2. When [load] returns a promise, the store was cleared exactly once,
    at the start; after that only entities were created, merged and
    assigned to; and the changed event was raised once, at the very end,
    if the promise is fulfilled, and not at all if it is rejected or never
    settles. *)
Theorem load_history R geoJson p ds ds' :
  load R geoJson ds = (Ok p, ds') ->
  exists h,
    history ds'
    = history ds ++ [Clear] ++ h ++ match p with Fulfilled _ => [Changed] | _ => [] end /\
    Forall (fun e => isEntityEffect e = true) h.
Proof.
  intros (g & found & _ & _ & Hrun)%load_returns.
  destruct (crsPromise R g) as [[f|e0| |]|e0]; [| | |done|done].
  - pose proof (entityHistory_invoke _ found g g f (with_collection ds [] [Clear])
                  (entityHistory_refl _)) as (l & Hl & Hall).
    destruct (invoke typeHandler found g g f (with_collection ds [] [Clear]))
      as [[[]|e1] ds1];
      destruct Hrun as [-> ->]; exists l; cbn in Hl |- *; rewrite Hl.
    + split; [by rewrite <- !app_assoc | done].
    + split; [by rewrite app_nil_r, <- !app_assoc | done].
  - destruct Hrun as [-> ->]. by exists [].
  - destruct Hrun as [-> ->]. by exists [].
Qed.

(** ** Entities are only ever added *)

Lemma createObject_fits geojson ds :
  guidsFresh ds ->
  exists k n,
    createObject geojson ds = (Ok k, installed ds k geojson n) /\
    (k ∉ keys (_dynamicObjectCollection ds)) /\
    guidsFresh (installed ds k geojson n) /\
    keyFits geojson k.
Proof.
  intros Hfresh.
  destruct (id geojson) as [s|] eqn:Hid; [destruct (decide (type geojson = "Feature")) as [Ht|Ht]|].
  - destruct (createObject_id geojson s ds Ht Hid) as (n & Hrun & Hfree & _).
    exists (Id (candidate s n)), (guids ds). split; [done|]. split; [done|].
    split; [apply guidsFresh_installed; [done | lia | intros i [=]]|].
    split; [done|]. by exists s, n.
  - exists (Guid (guids ds)), (S (guids ds)).
    split; [apply createObject_guid; auto|].
    split; [intros Hin; apply Hfresh in Hin; lia|].
    split; [apply guidsFresh_installed; [done | lia | intros i [= ->]; lia]|]. by right.
  - exists (Guid (guids ds)), (S (guids ds)).
    split; [apply createObject_guid; auto|].
    split; [intros Hin; apply Hfresh in Hin; lia|].
    split; [apply guidsFresh_installed; [done | lia | intros i [= ->]; lia]|]. by left.
Qed.

Lemma appends_refl Q ds : guidsFresh ds -> appends Q ds ds.
Proof.
  intros Hfresh. exists []. rewrite app_nil_r. split; [done|]. split; [done|].
  split; [apply NoDup_nil_2|]. split; [|done]. intros k Hk. by apply elem_of_nil in Hk.
Qed.

Lemma appends_trans Q ds1 ds2 ds3 :
  appends Q ds1 ds2 -> appends Q ds2 ds3 -> appends Q ds1 ds3.
Proof.
  intros (s1 & H1 & F1 & N1 & D1 & _) (s2 & H2 & F2 & N2 & D2 & Hfresh).
  exists (s1 ++ s2). rewrite H2, H1, <- app_assoc. split; [done|].
  split; [by apply Forall_app|].
  assert (Hd2 : forall k, k ∈ keys s2 ->
                          (k ∉ keys (_dynamicObjectCollection ds1)) /\ (k ∉ keys s1)).
  { intros k Hk. apply D2 in Hk. rewrite H1 in Hk. unfold keys in *.
    rewrite fmap_app, elem_of_app in Hk. tauto. }
  split; [|split; [|done]].
  - unfold keys in *. rewrite fmap_app. apply NoDup_app. split; [done|].
    split; [|done]. intros k Hk1 Hk2. by apply Hd2 in Hk2 as [_ ?].
  - intros k. unfold keys in *. rewrite fmap_app, elem_of_app.
    intros [Hk|Hk]; [by apply D1 | by apply Hd2 in Hk as [? _]].
Qed.

Lemma appends_mono (Q Q' : GeoJson -> Prop) ds ds' :
  (forall node, Q node -> Q' node) -> appends Q ds ds' -> appends Q' ds ds'.
Proof.
  intros HQ (seg & Hc & Hall & Hrest). exists seg. split; [done|]. split; [|done].
  eapply Forall_impl; [exact Hall|]. intros e (node & Hn & He). exists node. auto.
Qed.

Lemma lastObject_appends ds ds' k geojson :
  lastObject (_dynamicObjectCollection ds) k geojson ds' -> keyFits geojson k ->
  appends (eq geojson) ds ds'.
Proof.
  intros (o & Hc & Hg & Hk & Hfresh) Hfits. exists [(k, o)]. split; [done|].
  split; [apply Forall_singleton; by exists geojson|].
  split; [apply NoDup_singleton|]. split; [|done].
  intros k' Hk'. apply list_elem_of_singleton in Hk'. by subst.
Qed.

(** [createObject] followed by work on the object it returned adds one
    entry, whether or not the work throws. *)
Lemma createObject_then_appends {A} geojson (rest : Key -> M A) ds :
  guidsFresh ds ->
  (forall k, preserves (lastObject (_dynamicObjectCollection ds) k geojson) (rest k)) ->
  appends (eq geojson) ds ((let* k := createObject geojson in rest k) ds).2.
Proof.
  intros Hfresh Hrest.
  destruct (createObject_fits geojson ds Hfresh) as (k & n & Hrun & Hk & Hfresh' & Hfits).
  unfold bind. rewrite Hrun. apply (lastObject_appends _ _ k); [|done].
  apply Hrest. by apply lastObject_installed.
Qed.

Lemma appends_guidsFresh Q ds ds' : appends Q ds ds' -> guidsFresh ds'.
Proof. by intros (? & ? & ? & ? & ? & ?). Qed.

(** A loop adds what its turns add, also when it is cut short. *)
Lemma forEach_appends {A} Q (body : A -> M unit) l ds :
  (forall x ds1, x ∈ l -> guidsFresh ds1 -> appends Q ds1 (body x ds1).2) ->
  guidsFresh ds ->
  appends Q ds (forEach body l ds).2.
Proof.
  revert ds. induction l as [|x l IH]; intros ds Hbody Hfresh; cbn [forEach].
  - by apply appends_refl.
  - unfold bind. pose proof (Hbody x ds ltac:(left) Hfresh) as Hx.
    destruct (body x ds) as [[[]|e] ds1]; cbn [snd] in Hx; [|done].
    eapply appends_trans; [exact Hx|]. apply IH; [|by eapply appends_guidsFresh].
    intros y ds2 Hy. apply Hbody. by right.
Qed.

Ltac appends_block :=
  apply createObject_then_appends; [assumption|]; intros ?; preserve.

Lemma geometryHandler_appends geometry :
  forall h geojson crsFunction ds,
    guidsFresh ds ->
    appends (eq geojson) ds (geometryHandler h geojson geometry crsFunction ds).2.
Proof.
  induction geometry as [geometry IH] using GeoJson_geometries_ind.
  intros h geojson crsFunction ds Hfresh. destruct h; cbn [geometryHandler].
  - rewrite processGeometryCollection_unfold.
    destruct (geometries geometry) as [gs|] eqn:Hgs; [|by apply appends_refl].
    specialize (IH gs eq_refl). rewrite Forall_forall in IH.
    apply forEach_appends; [|done]. intros x ds1 Hx Hfresh1.
    destruct (js_get geometryTypes (type x)) as [[hx|member]|];
      [by apply IH | by apply appends_refl..].
  - unfold processLineString. appends_block.
  - unfold processMultiLineString.
    destruct (coordinates geometry); [|by apply appends_refl].
    apply forEach_appends; [|done]. intros x ds1 _ Hfresh1. appends_block.
  - unfold processMultiPoint.
    destruct (coordinates geometry); [|by apply appends_refl].
    apply forEach_appends; [|done]. intros x ds1 _ Hfresh1. appends_block.
  - unfold processMultiPolygon.
    destruct (coordinates geometry); [|by apply appends_refl].
    apply forEach_appends; [|done]. intros x ds1 _ Hfresh1. appends_block.
  - unfold processPoint. appends_block.
  - unfold processPolygon. appends_block.
Qed.

Lemma processFeature_appends feature crsFunction ds :
  guidsFresh ds -> appends (eq feature) ds (processFeature feature crsFunction ds).2.
Proof.
  intros Hfresh. unfold processFeature.
  destruct (geometry feature) as [| |g]; [by apply appends_refl | appends_block |].
  destruct (js_get geometryTypes (type g)) as [[h|member]|];
    [by apply geometryHandler_appends | by apply appends_refl..].
Qed.

Lemma typeHandler_appends h geojson geometry crsFunction ds :
  guidsFresh ds ->
  appends (match h with
           | ProcessFeatureCollection =>
               fun node => exists fs, features geojson = Some fs /\ node ∈ fs
           | _ => eq geojson
           end) ds (typeHandler h geojson geometry crsFunction ds).2.
Proof.
  intros Hfresh. destruct h; cbn [typeHandler].
  - by apply processFeature_appends.
  - unfold processFeatureCollection.
    destruct (features geojson) as [fs|]; [|by apply appends_refl].
    apply forEach_appends; [|done]. intros f ds1 Hf Hfresh1.
    eapply appends_mono; [|by apply processFeature_appends].
    intros node <-. by exists fs.
  - by apply geometryHandler_appends.
Qed.

(** X3. Entities that are in the store when a handler starts are still
    there when it ends, unchanged and at the same place, whether it ends
    normally or throws: a handler only adds entries at the end, and it
    leaves the identifiers of [createGuid] unused in the store. So inside
    a [FeatureCollection] no feature alters or removes the entities of an
    earlier one, and an exception leaves what was made before it. *)
Theorem handlers_keep_existing_entities h geojson geometry crsFunction ds :
  guidsFresh ds ->
  _dynamicObjectCollection ds
    `prefix_of` _dynamicObjectCollection (typeHandler h geojson geometry crsFunction ds).2 /\
  guidsFresh (typeHandler h geojson geometry crsFunction ds).2.
Proof.
  intros Hfresh.
  destruct (typeHandler_appends h geojson geometry crsFunction ds Hfresh)
    as (seg & Hc & _ & _ & _ & Hfresh').
  split; [by exists seg | done].
Qed.

Lemma geoJsonObjectTypes_inv (t : string) h :
  geoJsonObjectTypes !! t = Some h ->
  (h = ProcessFeatureCollection <-> t = "FeatureCollection").
Proof.
  unfold geoJsonObjectTypes. cbn [list_to_map foldr fst snd uncurry].
  repeat (rewrite lookup_insert; case_decide;
          [subst; intros [= <-]; by split|]).
  by rewrite lookup_empty.
Qed.

(** The store of a [load] that returned a promise: everything in it was
    added, after the clear, by the handler of the document. *)
Lemma load_appends R geoJson p ds ds' :
  load R geoJson ds = (Ok p, ds') ->
  exists g,
    geoJson = Some g /\
    exists seg,
      _dynamicObjectCollection ds' = seg /\
      Forall (madeFrom (documentNodes g)) seg /\ NoDup (keys seg) /\ guidsFresh ds'.
Proof.
  intros (g & found & -> & Hh & Hrun)%load_returns. exists g. split; [done|].
  assert (Hcleared : exists seg,
             _dynamicObjectCollection (with_collection ds [] [Clear]) = seg /\
             Forall (madeFrom (documentNodes g)) seg /\ NoDup (keys seg) /\
             guidsFresh (with_collection ds [] [Clear])).
  { exists []. cbn. split; [done|]. split; [done|].
    split; [apply NoDup_nil_2 | apply guidsFresh_cleared]. }
  destruct found as [h|member]; cycle 1.
  { cbn [invoke] in Hrun. unfold lift in Hrun.
    destruct (crsPromise R g) as [[f|e0| |]|e0]; [| | |done|done].
    - destruct (asHandler member); destruct Hrun as [-> ->]; [|done].
      destruct Hcleared as (seg & <- & ? & ? & ?). exists []. done.
    - by destruct Hrun as [-> ->].
    - by destruct Hrun as [-> ->]. }
  apply js_get_Own in Hh. cbn [invoke] in Hrun. clear Hcleared.
  assert (Hdoc : forall node,
             match h with
             | ProcessFeatureCollection =>
                 fun node => exists fs, features g = Some fs /\ node ∈ fs
             | _ => eq g
             end node -> documentNodes g node).
  { intros node Hn. unfold documentNodes. apply geoJsonObjectTypes_inv in Hh.
    destruct (decide (type g = "FeatureCollection")) as [Ht|Ht].
    - apply Hh in Ht. by subst h.
    - destruct h; [done| |done]. by destruct Ht, Hh as [-> _]. }
  destruct (crsPromise R g) as [[f|e0| |]|e0]; [| | |done|done].
  - pose proof (typeHandler_appends h g g f _ (guidsFresh_cleared ds)) as Happ.
    apply (appends_mono _ _ _ _ Hdoc) in Happ as (seg & Hc & Hall & Hnd & _ & Hfresh).
    destruct (typeHandler h g g f (with_collection ds [] [Clear])) as [[[]|e1] ds1];
      destruct Hrun as [-> ->]; cbn [snd] in *; exists seg; cbn in Hc |- *; done.
  - destruct Hrun as [-> ->]. exists []. cbn. split; [done|]. split; [done|].
    split; [apply NoDup_nil_2 | apply guidsFresh_cleared].
  - destruct Hrun as [-> ->]. exists []. cbn. split; [done|]. split; [done|].
    split; [apply NoDup_nil_2 | apply guidsFresh_cleared].
Qed.

(** X4. Whenever [load] has returned a promise, fulfilled or not, no two
    entities of the store have the same key. *)
Theorem load_keys_unique R geoJson p ds ds' :
  load R geoJson ds = (Ok p, ds') -> NoDup (keys (_dynamicObjectCollection ds')).
Proof. intros (g & _ & seg & -> & _ & Hnd & _)%load_appends. done. Qed.

(** X5. Whenever [load] has returned a promise, every entity of the store
    was made from the document just loaded: it refers to one of the
    features if the document is a [FeatureCollection] and to the document
    itself otherwise, and its key is derived from the [id] of that node
    ([id], [id_2], ...) if the node is a [Feature] with an [id] and is an
    identifier of [createGuid] if it is not. Nothing of an earlier load
    is left. *)
Theorem load_entities_from_document R g p ds ds' :
  load R (Some g) ds = (Ok p, ds') ->
  Forall (madeFrom (documentNodes g)) (_dynamicObjectCollection ds').
Proof. intros (g' & [= <-] & seg & -> & Hall & _)%load_appends. done. Qed.

(** ** A feature that fails *)

Lemma forEach_app {A} (body : A -> M unit) l1 l2 ds :
  forEach body (l1 ++ l2) ds
  = match forEach body l1 ds with
    | (Ok _, ds1) => forEach body l2 ds1
    | (Throw e, ds1) => (Throw e, ds1)
    end.
Proof.
  revert ds. induction l1 as [|x l1 IH]; intros ds; [done|].
  cbn [app forEach]. unfold bind. destruct (body x ds) as [[[]|e] ds1]; [apply IH | done].
Qed.

(** X6. In a [FeatureCollection] the features are handled up to the first
    one that throws: the promise of [load] is rejected with the error of
    that feature, the store holds what was made up to the exception (there
    is no rollback), the features after it are not looked at, and the
    changed event is not raised. *)
Theorem load_stops_at_first_failing_feature
    R featureCollection fs1 bad fs2 crsFunction e ds ds1 ds2 :
  type featureCollection = "FeatureCollection" ->
  features featureCollection = Some (fs1 ++ bad :: fs2) ->
  crsPromise R featureCollection = Ok (Fulfilled crsFunction) ->
  forEach (fun feature => processFeature feature crsFunction) fs1
          (with_collection ds [] [Clear]) = (Ok tt, ds1) ->
  processFeature bad crsFunction ds1 = (Throw e, ds2) ->
  load R (Some featureCollection) ds = (Ok (Rejected e), ds2) /\
  _dynamicObjectCollection ds1 `prefix_of` _dynamicObjectCollection ds2.
Proof.
  intros Ht Hfs Hcrs Hrun1 Hbad.
  assert (Hh : geoJsonObjectTypes !! type featureCollection = Some ProcessFeatureCollection).
  { rewrite Ht. apply geoJsonObjectTypes_FeatureCollection. }
  split.
  - rewrite (load_recognized R _ _ ds Hh), Hcrs. unfold then_, bind. cbn [typeHandler].
    unfold processFeatureCollection. rewrite Hfs, forEach_app, Hrun1. cbn [forEach].
    unfold bind. by rewrite Hbad.
  - assert (Hfresh1 : guidsFresh ds1).
    { pose proof (forEach_appends (fun _ => True)
                    (fun feature => processFeature feature crsFunction) fs1
                    (with_collection ds [] [Clear])) as Happ.
      rewrite Hrun1 in Happ. eapply appends_guidsFresh, Happ; [|apply guidsFresh_cleared].
      intros f ds0 _ Hfresh0. eapply appends_mono; [|by apply processFeature_appends]. done. }
    destruct (processFeature_appends bad crsFunction ds1 Hfresh1) as (seg & Hc & _).
    rewrite Hbad in Hc. by exists seg.
Qed.

(** ** Positions follow the coordinates *)

Lemma transformEach_Forall2 crsFunction cs (ps : list Cartesian) :
  Forall2 (fun x p => crsFunction (Some x) = Ok p) cs ps ->
  transformEach crsFunction cs = Ok (Some <$> ps).
Proof.
  induction 1 as [|c p cs ps Hc _ IH]; cbn [transformEach]; [done|].
  by rewrite Hc, IH.
Qed.

(** X7. A [LineString] gives one entity whose vertex positions are the
    transforms of its coordinates, one for one and in the order of the
    array, with the default line merged. *)
Theorem lineString_positions_in_order geojson geometry crsFunction cs ps ds :
  guidsFresh ds ->
  coordinates geometry = Some (Arr cs) ->
  Forall2 (fun x p => crsFunction (Some x) = Ok p) cs ps ->
  exists k n,
    (k ∉ keys (_dynamicObjectCollection ds)) /\
    processLineString geojson geometry crsFunction ds
    = (Ok tt, extended ds k (decoded geojson (defaultLine ds) None (Some (Some <$> ps))) n
                [Create k; SetGeoJson k; Merge k; SetVertexPositions k]).
Proof.
  intros Hfresh Hc Hps.
  destruct (createObject_new geojson ds Hfresh) as (k & n & Hrun & Hk & _).
  exists k, n. split; [done|]. unfold processLineString. unfold bind at 1. rewrite Hrun, Hc.
  unfold bind, lift, mergeStyle, setVertexPositions, installed.
  cbn [transformArray js_length js_elements]. rewrite (transformEach_Forall2 _ _ _ Hps).
  rewrite assign_extended by done. by rewrite assign_extended by done.
Qed.

(** X8. A [Polygon] gives one entity whose vertex positions are the
    transforms of the coordinates of its first ring, in order, with the
    default polygon merged; the rings after the first (the holes) are
    not read, whatever they are. *)
Theorem polygon_outer_ring_only geojson geometry crsFunction cs holes ps ds :
  guidsFresh ds ->
  coordinates geometry = Some (Arr (Arr cs :: holes)) ->
  Forall2 (fun x p => crsFunction (Some x) = Ok p) cs ps ->
  exists k n,
    (k ∉ keys (_dynamicObjectCollection ds)) /\
    processPolygon geojson geometry crsFunction ds
    = (Ok tt, extended ds k (decoded geojson (defaultPolygon ds) None (Some (Some <$> ps))) n
                [Create k; SetGeoJson k; Merge k; SetVertexPositions k]).
Proof.
  intros Hfresh Hc Hps.
  destruct (createObject_new geojson ds Hfresh) as (k & n & Hrun & Hk & _).
  exists k, n. split; [done|]. unfold processPolygon. unfold bind at 1. rewrite Hrun, Hc.
  cbn [js_index lookup list_lookup].
  unfold bind, lift, mergeStyle, setVertexPositions, installed.
  cbn [transformArray js_length js_elements]. rewrite (transformEach_Forall2 _ _ _ Hps).
  rewrite assign_extended by done. by rewrite assign_extended by done.
Qed.

(** X9. When the transform throws, the exception passes through the
    handler and the entity already created stays in the store:
    [processPoint] has merged the default point before it calls the
    transform, so its entity has graphics and no position, while
    [processLineString] and [processPolygon] call the transform before
    the merge, so theirs has neither graphics nor positions. *)
Theorem transform_exception_leaves_entity geojson geometry crsFunction e ds :
  guidsFresh ds ->
  exists k n,
    (k ∉ keys (_dynamicObjectCollection ds)) /\
    (crsFunction (coordinates geometry) = Throw e ->
     processPoint geojson geometry crsFunction ds
     = (Throw e, extended ds k (decoded geojson (defaultPoint ds) None None) n
                   [Create k; SetGeoJson k; Merge k])) /\
    (forall a,
        coordinates geometry = Some a -> transformArray crsFunction a = Throw e ->
        processLineString geojson geometry crsFunction ds
        = (Throw e, installed ds k geojson n)) /\
    (forall a ring,
        coordinates geometry = Some a -> js_index a 0 = Some ring ->
        transformArray crsFunction ring = Throw e ->
        processPolygon geojson geometry crsFunction ds
        = (Throw e, installed ds k geojson n)).
Proof.
  intros Hfresh.
  destruct (createObject_new geojson ds Hfresh) as (k & n & Hrun & Hk & _).
  exists k, n. split; [done|]. split; [|split].
  - intros Hpoint. unfold processPoint. unfold bind at 1. rewrite Hrun.
    unfold bind, lift, mergeStyle, installed. rewrite Hpoint.
    by rewrite assign_extended by done.
  - intros a Hc Hline. unfold processLineString. unfold bind at 1. rewrite Hrun, Hc.
    unfold bind, lift. by rewrite Hline.
  - intros a ring Hc Ha Hring. unfold processPolygon. unfold bind at 1.
    rewrite Hrun, Hc, Ha. unfold bind, lift. by rewrite Hring.
Qed.

(** ** Multi-geometries *)

Lemma multiPoint_turn feature (s : string) j (x : Coordinates)
    (crsFunction : CrsFunction) (p : Cartesian) ds :
  type feature = "Feature" -> id feature = Some s ->
  (forall m, Id (candidate s m) ∈ keys (_dynamicObjectCollection ds) <-> m < j) ->
  crsFunction (Some x) = Ok p ->
  (let* dynamicObject := createObject feature in
   mergeStyle dynamicObject defaultPoint;;
   let* q := lift (crsFunction (Some x)) in
   setPosition dynamicObject q) ds
  = (Ok tt, extended ds (Id (candidate s j))
              (decoded feature (defaultPoint ds) (Some p) None) (guids ds)
              [Create (Id (candidate s j)); SetGeoJson (Id (candidate s j));
               Merge (Id (candidate s j)); SetPosition (Id (candidate s j))]).
Proof.
  intros Ht Hid Hj Hp.
  assert (Hk : Id (candidate s j) ∉ keys (_dynamicObjectCollection ds)).
  { intros Hin. apply Hj in Hin. lia. }
  unfold bind at 1. rewrite (createObject_id_at feature s j ds Ht Hid Hk);
    [|intros m Hm; by apply Hj].
  rewrite Hp. unfold bind, lift, mergeStyle, setPosition, installed.
  rewrite assign_extended by done. by rewrite assign_extended by done.
Qed.

Lemma multiPoint_keys_from feature (s : string) (crsFunction : CrsFunction) cs :
  type feature = "Feature" -> id feature = Some s ->
  Forall (fun x => exists p, crsFunction (Some x) = Ok p) cs ->
  forall j ds,
    (forall m, Id (candidate s m) ∈ keys (_dynamicObjectCollection ds) <-> m < j) ->
    exists ds',
      forEach (fun x =>
        let* dynamicObject := createObject feature in
        mergeStyle dynamicObject defaultPoint;;
        let* q := lift (crsFunction (Some x)) in
        setPosition dynamicObject q) cs ds = (Ok tt, ds') /\
      keys (_dynamicObjectCollection ds')
      = keys (_dynamicObjectCollection ds)
        ++ ((fun m => Id (candidate s m)) <$> seq j (length cs)).
Proof.
  intros Ht Hid Hall. induction Hall as [|x cs [p Hp] _ IH]; intros j ds Hj; cbn [forEach].
  - exists ds. by rewrite app_nil_r.
  - unfold bind at 1. rewrite (multiPoint_turn feature s j x crsFunction p ds Ht Hid Hj Hp).
    destruct (IH (S j) (extended ds (Id (candidate s j))
                (decoded feature (defaultPoint ds) (Some p) None) (guids ds)
                [Create (Id (candidate s j)); SetGeoJson (Id (candidate s j));
                 Merge (Id (candidate s j)); SetPosition (Id (candidate s j))]))
      as (ds' & Hrun & Hkeys).
    { intros m. unfold extended, keys. cbn. rewrite fmap_app, elem_of_app. cbn.
      rewrite list_elem_of_singleton. split.
      - intros [Hin|[= Heq]]; [apply Hj in Hin; lia|].
        apply (candidate_inj s) in Heq. lia.
      - intros Hm. destruct (decide (m = j)) as [->|]; [by right|].
        left. apply Hj. lia. }
    exists ds'. split; [done|]. rewrite Hkeys. unfold extended, keys. cbn.
    by rewrite fmap_app, <- app_assoc.
Qed.

(** X10. A [Feature] with the [id] s whose geometry is a [MultiPoint] of
    n coordinates, processed when no key s, s_2, s_3, ... is in use,
    gives n entities whose keys are s, s_2, ..., s_n in the order of the
    coordinates. *)
Theorem multiPoint_feature_keys feature geometry (s : string)
    (crsFunction : CrsFunction) cs ds :
  type feature = "Feature" -> id feature = Some s ->
  coordinates geometry = Some (Arr cs) ->
  Forall (fun x => exists p, crsFunction (Some x) = Ok p) cs ->
  (forall m, Id (candidate s m) ∉ keys (_dynamicObjectCollection ds)) ->
  exists ds',
    processMultiPoint feature geometry crsFunction ds = (Ok tt, ds') /\
    keys (_dynamicObjectCollection ds')
    = keys (_dynamicObjectCollection ds)
      ++ ((fun m => Id (candidate s m)) <$> seq 0 (length cs)).
Proof.
  intros Ht Hid Hc Hall Hnone. unfold processMultiPoint. rewrite Hc. cbn [js_elements].
  apply (multiPoint_keys_from feature s crsFunction cs Ht Hid Hall 0 ds).
  intros m. split; [intros Hin; by apply Hnone in Hin | lia].
Qed.

Lemma overlay_idempotent (own template : option Graphics) :
  overlay (overlay own template) template = overlay own template.
Proof. by destruct own, template. Qed.

(** One turn of the loop on [q] in [processMultiPolygon]. *)
Lemma multiPolygon_turn crsFunction ring ps k n o h ds :
  k ∉ keys (_dynamicObjectCollection ds) ->
  transformArray crsFunction ring = Ok ps ->
  (let* positions := lift (transformArray crsFunction ring) in
   mergeStyle k defaultPolygon;;
   setVertexPositions k positions) (extended ds k o n h)
  = (Ok tt, extended ds k
              {| geoJson := geoJson o;
                 graphics := graphics (merge o (defaultPolygon ds));
                 position := position o;
                 vertexPositions := Some (mkConstantPositionProperty ps) |} n
              ((h ++ [Merge k]) ++ [SetVertexPositions k])).
Proof.
  intros Hk Hps. unfold bind, lift, mergeStyle, setVertexPositions. rewrite Hps.
  rewrite assign_extended by done. by rewrite assign_extended by done.
Qed.

(** The loop on [q], run at least once. *)
Lemma multiPolygon_turns geojson crsFunction ring ps k n (l : list Coordinates) ds :
  k ∉ keys (_dynamicObjectCollection ds) ->
  transformArray crsFunction ring = Ok ps ->
  l <> [] ->
  forall o h,
    geoJson o = Some geojson -> position o = None ->
    exists h',
      forEach (fun _ : Coordinates =>
        let* positions := lift (transformArray crsFunction ring) in
        mergeStyle k defaultPolygon;;
        setVertexPositions k positions) l (extended ds k o n h)
      = (Ok tt, extended ds k
                  {| geoJson := Some geojson;
                     graphics := graphics (merge o (defaultPolygon ds));
                     position := None;
                     vertexPositions := Some (mkConstantPositionProperty ps) |} n h').
Proof.
  intros Hk Hps Hl. induction l as [|x l IH]; [done|]. intros o h Hg Hpos. cbn [forEach].
  unfold bind at 1. rewrite (multiPolygon_turn crsFunction ring ps k n o h ds Hk Hps).
  rewrite Hg, Hpos. destruct l as [|y l].
  - cbn [forEach]. unfold ret. eauto.
  - edestruct (IH ltac:(done)) as (h' & Hrun); [| |rewrite Hrun]; [done..|].
    exists h'. cbn [merge graphics point polyline polygon].
    by rewrite !overlay_idempotent.
Qed.

(** X11. For a [MultiPolygon] of one polygon whose outer ring is not
    empty, the loop on [q] is not visible in the store: the entity is the
    one [processPolygon] makes of that polygon, under the same key. (With
    an empty outer ring the two differ, see C2.) *)
Theorem multiPolygon_of_one_like_polygon
    geojson multi single crsFunction x cs holes ps ds :
  guidsFresh ds ->
  coordinates multi = Some (Arr [Arr (Arr (x :: cs) :: holes)]) ->
  coordinates single = Some (Arr (Arr (x :: cs) :: holes)) ->
  transformArray crsFunction (Arr (x :: cs)) = Ok ps ->
  (processMultiPolygon geojson multi crsFunction ds).1 = Ok tt /\
  (processPolygon geojson single crsFunction ds).1 = Ok tt /\
  _dynamicObjectCollection (processMultiPolygon geojson multi crsFunction ds).2
  = _dynamicObjectCollection (processPolygon geojson single crsFunction ds).2.
Proof.
  intros Hfresh Hm Hs Hps.
  destruct (createObject_new geojson ds Hfresh) as (k & n & Hrun & Hk & _).
  assert (Hpoly : processPolygon geojson single crsFunction ds
                  = (Ok tt, extended ds k (decoded geojson (defaultPolygon ds) None (Some ps)) n
                              [Create k; SetGeoJson k; Merge k; SetVertexPositions k])).
  { unfold processPolygon. unfold bind at 1. rewrite Hrun, Hs.
    cbn [js_index lookup list_lookup]. unfold bind, lift, mergeStyle, setVertexPositions, installed.
    rewrite Hps. rewrite assign_extended by done. by rewrite assign_extended by done. }
  destruct (multiPolygon_turns geojson crsFunction (Arr (x :: cs)) ps k n (x :: cs) ds
              Hk Hps ltac:(done) (created geojson) [Create k; SetGeoJson k] eq_refl eq_refl)
    as (h' & Hturns).
  assert (Hmulti : processMultiPolygon geojson multi crsFunction ds
                   = (Ok tt, extended ds k (decoded geojson (defaultPolygon ds) None (Some ps)) n h')).
  { unfold processMultiPolygon. rewrite Hm. cbn [js_elements forEach].
    unfold bind at 1. unfold bind at 1. rewrite Hrun. cbn [js_index lookup list_lookup js_elements].
    unfold installed. rewrite Hturns. done. }
  by rewrite Hpoly, Hmulti.
Qed.

(** ** The errors of the CRS checks *)

(** X12. The CRS errors of [load], for a document of a recognized type;
    each leaves the data source untouched. A [crs] that is [null] and a
    [crs] without [properties] are invalid; a name that reads as
    [undefined] in [crsNames] (no entry and no inherited member of that
    name; an absent name reads as the property "undefined") is reported
    as unknown, with the name; a type other than "name" and "link" is
    reported as unknown even when [properties] is [null]; and with
    [properties] equal to [null] the types "name" and "link" end in a
    [TypeError]. *)
Theorem load_crs_errors R geoJson h ds :
  geoJsonObjectTypes !! type geoJson = Some h ->
  (crs geoJson = Null ->
   load R (Some geoJson) ds = (Throw (InvalidCrs "crs is null."), ds)) /\
  (forall c0 : Crs, crs geoJson = Defined c0 -> crs_properties c0 = Undefined ->
             load R (Some geoJson) ds
             = (Throw (InvalidCrs "crs.properties is undefined."), ds)) /\
  (forall (c0 : Crs) properties,
      crs geoJson = Defined c0 -> crs_type c0 = "name" ->
      crs_properties c0 = Defined properties ->
      js_get (crsNames R) (js_key (props_name properties)) = None ->
      load R (Some geoJson) ds = (Throw (UnknownCrsName (props_name properties)), ds)) /\
  (forall c0 : Crs, crs geoJson = Defined c0 -> crs_properties c0 <> Undefined ->
             crs_type c0 <> "name" -> crs_type c0 <> "link" ->
             load R (Some geoJson) ds = (Throw (UnknownCrsType (crs_type c0)), ds)) /\
  (forall c0 : Crs, crs geoJson = Defined c0 -> crs_properties c0 = Null ->
             crs_type c0 = "name" \/ crs_type c0 = "link" ->
             load R (Some geoJson) ds = (Throw TypeError, ds)).
Proof.
  intros Hh. rewrite (load_recognized R geoJson h ds Hh). unfold crsPromise.
  split; [by intros ->|]. split; [by intros c0 -> ->|]. split; [|split].
  - intros c0 properties -> Ht -> Hname. rewrite decide_True by done. by rewrite Hname.
  - intros c0 -> Hp Hname Hlink.
    destruct (crs_properties c0); [done|..]; by rewrite !decide_False by done.
  - intros c0 -> -> [Ht|Ht]; rewrite Ht; [by rewrite decide_True|].
    rewrite decide_False by done. by rewrite decide_True.
Qed.

(** ** Members that are missing *)

(** X13. What a handler does when the member it iterates or indexes is
    absent. [processFeatureCollection] without [features],
    [processGeometryCollection] without [geometries] and the three
    multi-geometries without [coordinates] throw a [TypeError] and leave
    the data source as it is; [processLineString] and [processPolygon]
    without [coordinates] throw the [TypeError] after they have created
    their entity, which stays in the store with no graphics and no
    positions. *)
Theorem missing_members geojson geometry crsFunction ds :
  guidsFresh ds ->
  (features geometry = None ->
   processFeatureCollection geometry crsFunction ds = (Throw TypeError, ds)) /\
  (geometries geometry = None ->
   processGeometryCollection geojson geometry crsFunction ds = (Throw TypeError, ds)) /\
  (coordinates geometry = None ->
   processMultiPoint geojson geometry crsFunction ds = (Throw TypeError, ds) /\
   processMultiLineString geojson geometry crsFunction ds = (Throw TypeError, ds) /\
   processMultiPolygon geojson geometry crsFunction ds = (Throw TypeError, ds) /\
   exists k n,
     (k ∉ keys (_dynamicObjectCollection ds)) /\
     processLineString geojson geometry crsFunction ds
     = (Throw TypeError, installed ds k geojson n) /\
     processPolygon geojson geometry crsFunction ds
     = (Throw TypeError, installed ds k geojson n)).
Proof.
  intros Hfresh. split; [|split].
  - intros Hf. unfold processFeatureCollection. by rewrite Hf.
  - intros Hg. rewrite processGeometryCollection_unfold. by rewrite Hg.
  - intros Hc. unfold processMultiPoint, processMultiLineString, processMultiPolygon.
    rewrite Hc. do 3 (split; [done|]).
    destruct (createObject_new geojson ds Hfresh) as (k & n & Hrun & Hk & _).
    exists k, n. split; [done|]. unfold processLineString, processPolygon, bind.
    by rewrite Hrun, Hc.
Qed.

(** ** loadUrl *)

(** X14. [loadUrl] with a url, on the promise [loadJson] returns, never
    throws. When the fetch fails, the error is raised once on the error
    event, the data source is untouched, and the promise returned is
    fulfilled, not rejected. When the fetch succeeds, nothing is raised
    on the error event whatever [load] does: if [load] throws, the
    promise returned is rejected with that error and the data source is
    as [load] left it; otherwise the promise and the data source are
    those of [load]. *)
Theorem loadUrl_outcomes R loadJson (url : string) ds :
  loadJson url <> NoPromise ->
  exists p ds' errors,
    loadUrl R loadJson (Some url) ds = (Ok p, ds', errors) /\
    (forall error, loadJson url = Rejected error ->
                   p = Fulfilled tt /\ ds' = ds /\ errors = [error]) /\
    (forall geoJson,
        loadJson url = Fulfilled geoJson ->
        errors = [] /\
        (load R (Some geoJson) ds = (Ok p, ds') \/
         exists e, load R (Some geoJson) ds = (Throw e, ds') /\ p = Rejected e)) /\
    (loadJson url = Pending -> p = Pending /\ ds' = ds /\ errors = []).
Proof.
  intros Hpromise. unfold loadUrl.
  destruct (loadJson url) as [geoJson|error| |] eqn:Hfetch; [| | |done].
  - destruct (load R (Some geoJson) ds) as [[p|e] ds1] eqn:Hload.
    + exists p, ds1, []. split; [done|]. split; [done|]. split; [|done].
      intros ? [= <-]. rewrite Hload. auto.
    + exists (Rejected e), ds1, []. split; [done|]. split; [done|]. split; [|done].
      intros ? [= <-]. rewrite Hload. split; [done|]. right. by exists e.
  - exists (Fulfilled tt), ds, [error]. split; [done|]. split; [|done].
    by intros ? [= <-].
  - exists Pending, ds, []. done.
Qed.

End Properties.

(** * The code at concrete inputs *)

(** C2. [processMultiPolygon] assigns [vertexPositions] (and merges the
    default polygon) once for every position of the outer ring instead of
    once: four times for a triangle, and not at all for an empty outer
    ring, whose entity is left without vertex positions and graphics,
    where [processPolygon] assigns an empty list once. *)
Theorem multiPolygon_assigns_per_vertex :
  let triangle := load initialRegistry (Some triangleMultiPolygon) exampleDataSource in
  let emptyRing := load initialRegistry (Some emptyRingMultiPolygon) exampleDataSource in
  let polygon := load initialRegistry (Some emptyRingPolygon) exampleDataSource in
  triangle.1 = Ok (Fulfilled tt) /\
  keys (_dynamicObjectCollection triangle.2) = [Guid 0] /\
  positionAssignments (Guid 0) (history triangle.2) = 4 /\
  history triangle.2
  = [Clear; Create (Guid 0); SetGeoJson (Guid 0);
     Merge (Guid 0); SetVertexPositions (Guid 0);
     Merge (Guid 0); SetVertexPositions (Guid 0);
     Merge (Guid 0); SetVertexPositions (Guid 0);
     Merge (Guid 0); SetVertexPositions (Guid 0); Changed] /\
  emptyRing.1 = Ok (Fulfilled tt) /\
  _dynamicObjectCollection emptyRing.2 = [(Guid 0, created emptyRingMultiPolygon)] /\
  positionAssignments (Guid 0) (history emptyRing.2) = 0 /\
  _dynamicObjectCollection polygon.2
  = [(Guid 0, decoded emptyRingPolygon (defaultPolygon exampleDataSource) None (Some []))] /\
  positionAssignments (Guid 0) (history polygon.2) = 1.
Proof. vm_compute. repeat split. Qed.

(** The example of the specification: a [Point] at the root gives one
    entity, with the default point merged and the position the transform
    makes of [[-75, 40]] (no height). *)
Example load_pointDocument :
  load initialRegistry (Some pointDocument) exampleDataSource
  = (Ok (Fulfilled tt),
     {| _dynamicObjectCollection :=
          [(Guid 0, decoded pointDocument (defaultPoint exampleDataSource)
                            (Some (Position (Some (num (-75))) (Some (num 40)) None)) None)];
        defaultPoint := defaultPoint exampleDataSource;
        defaultLine := defaultLine exampleDataSource;
        defaultPolygon := defaultPolygon exampleDataSource;
        guids := 1;
        history := [Clear; Create (Guid 0); SetGeoJson (Guid 0); Merge (Guid 0);
                    SetPosition (Guid 0); Changed] |}).
Proof. reflexivity. Qed.

(** Two features with the id "abc" and a multi-point without an id, loaded
    into a data source that has handed out one identifier before. *)
Example load_abcFeatures_keys :
  (load initialRegistry (Some abcFeatures) populatedDataSource).1 = Ok (Fulfilled tt) /\
  keys (_dynamicObjectCollection (load initialRegistry (Some abcFeatures) populatedDataSource).2)
  = [Id "abc"; Id "abc_2"; Guid 1; Guid 2].
Proof. vm_compute. split; reflexivity. Qed.

(** Counterexample to C1: the promise of a link resolver is rejected, and
    the store was cleared before; its object is gone. *)
Lemma load_rejected_link_clears :
  (load rejectingRegistry (Some linkedDocument) populatedDataSource).1
  = Ok (Rejected (Reason "not found")) /\
  keys (_dynamicObjectCollection populatedDataSource) = [Guid 0] /\
  _dynamicObjectCollection (load rejectingRegistry (Some linkedDocument) populatedDataSource).2
  <> _dynamicObjectCollection populatedDataSource.
Proof. vm_compute. repeat split. discriminate. Qed.


(** C7. The type "toString" is none of the nine entries of
    [geoJsonObjectTypes], and [load] does not throw "Unsupported GeoJSON
    object type" for it: the read finds [Object.prototype.toString], the
    check for [undefined] passes, the store is cleared, the member is
    called in place of a handler and the changed event is raised. What
    was in the store is gone and the promise is fulfilled. With
    "hasOwnProperty" the call throws, and the promise is rejected with a
    [TypeError], the store cleared. For "Widget", which no object
    inherits, [load] throws and leaves the data source alone. *)
Theorem load_inherited_type_name :
  geoJsonObjectTypes !! type inheritedTypeDocument = None /\
  keys (_dynamicObjectCollection populatedDataSource) = [Guid 0] /\
  load initialRegistry (Some inheritedTypeDocument) populatedDataSource
  = (Ok (Fulfilled tt),
     with_collection (with_collection populatedDataSource [] [Clear]) [] [Changed]) /\
  load initialRegistry (Some (node "hasOwnProperty")) populatedDataSource
  = (Ok (Rejected TypeError), with_collection populatedDataSource [] [Clear]) /\
  load initialRegistry (Some (node "Widget")) populatedDataSource
  = (Throw (UnsupportedDocumentType "Widget"), populatedDataSource).
Proof. vm_compute. repeat split. Qed.

(** C8. With the tables as the source initialises them (no resolver at
    all), a link whose [href] is "constructor" does not make [load]
    throw "Unable to resolve crs link": the read of [crsLinkHrefs] finds
    [Object.prototype.constructor], which is called with the properties
    and returns them; the store is cleared, and the call of [then] on
    what is no promise throws a [TypeError]. The same happens through
    [crsLinkTypes] for the link type "toString". For an [href] and a
    type that no object inherits, [load] throws "Unable to resolve crs
    link" and leaves the data source alone. *)
Theorem load_inherited_link_href :
  crsLinkHrefs (@initialRegistry exampleScene) !! "constructor" = None /\
  crsLinkTypes (@initialRegistry exampleScene) !! "undefined" = None /\
  crsPromise initialRegistry inheritedLinkDocument = Ok (@NoPromise (@CrsFunction exampleScene)) /\
  keys (_dynamicObjectCollection populatedDataSource) = [Guid 0] /\
  load initialRegistry (Some inheritedLinkDocument) populatedDataSource
  = (Throw TypeError, with_collection populatedDataSource [] [Clear]) /\
  load initialRegistry
       (Some (withCrs pointDocument (linkCrs (Some "http://example.com/crs") (Some "toString"))))
       populatedDataSource
  = (Throw TypeError, with_collection populatedDataSource [] [Clear]) /\
  load initialRegistry (Some linkedDocument) populatedDataSource
  = (Throw (UnresolvableCrsLink
              {| props_name := None; props_href := Some "http://example.com/crs";
                 props_type := Some "proj4" |}),
     populatedDataSource).
Proof. vm_compute. repeat split. Qed.

(** Counterexample to C3: for a [Polygon] with [coordinates] the empty
    array the promise of [load] is rejected with a [TypeError]; and the
    entity of a [Point] with [coordinates] the empty array has a position. *)
Lemma load_empty_polygon_throws :
  (load initialRegistry (Some emptyPolygon) exampleDataSource).1 = Ok (Rejected TypeError) /\
  (processPolygon emptyPolygon emptyPolygon defaultCrsFunction exampleDataSource).1
  = Throw TypeError /\
  (position <$> getObject
     (_dynamicObjectCollection
        (load initialRegistry (Some (withCoordinates (node "Point") (Arr [])))
              exampleDataSource).2) (Guid 0))
  = Some (Some (mkConstantPositionProperty (Position None None None))).
Proof. vm_compute. repeat split. Qed.

(** * Witnesses *)

Lemma load_clears_before_settling_witness :
  geoJsonObjectTypes !! type linkedDocument = Some (Geometry ProcessPoint) /\
  load rejectingRegistry (Some linkedDocument) populatedDataSource
  = (Ok (Rejected (Reason "not found")), with_collection populatedDataSource [] [Clear]).
Proof.
  split; [reflexivity|].
  destruct (load_clears_before_settling rejectingRegistry linkedDocument
              (Geometry ProcessPoint) populatedDataSource eq_refl) as (_ & _ & Hrejected & _).
  apply Hrejected. reflexivity.
Defined.


Lemma feature_null_or_missing_geometry_witness :
  type (feature (Some "abc") Null) = "Feature" /\
  crsPromise initialRegistry (feature (Some "abc") Null)
  = Ok (Fulfilled (@defaultCrsFunction exampleScene)) /\
  (exists k n,
      load initialRegistry (Some (feature (Some "abc") Null)) populatedDataSource
      = (Ok (Fulfilled tt),
         with_collection
           (installed (with_collection populatedDataSource [] [Clear]) k
                      (feature (Some "abc") Null) n)
           [(k, created (feature (Some "abc") Null))] [Changed])) /\
  load initialRegistry (Some (feature (Some "abc") Undefined)) populatedDataSource
  = (Ok (Rejected MissingGeometry), with_collection populatedDataSource [] [Clear]).
Proof.
  split; [reflexivity|]. split; [reflexivity|]. split.
  - apply (feature_null_or_missing_geometry initialRegistry (feature (Some "abc") Null)
             defaultCrsFunction populatedDataSource eq_refl eq_refl). reflexivity.
  - apply (feature_null_or_missing_geometry initialRegistry (feature (Some "abc") Undefined)
             defaultCrsFunction populatedDataSource eq_refl eq_refl). reflexivity.
Defined.

Lemma empty_coordinates_witness :
  guidsFresh populatedDataSource /\
  @defaultCrsFunction exampleScene (Some (Arr [])) = Ok (Position None None None) /\
  (exists k n,
      processPoint emptyPolygon emptyPolygon defaultCrsFunction populatedDataSource
      = (Ok tt, extended populatedDataSource k
                  (decoded emptyPolygon (defaultPoint populatedDataSource)
                           (Some (Position None None None)) None) n
                  [Create k; SetGeoJson k; Merge k; SetPosition k])) /\
  (exists k n,
      processPolygon emptyPolygon emptyPolygon defaultCrsFunction populatedDataSource
      = (Throw TypeError, installed populatedDataSource k emptyPolygon n)) /\
  processMultiPoint emptyPolygon emptyPolygon defaultCrsFunction populatedDataSource
  = (Ok tt, populatedDataSource).
Proof.
  assert (Hfresh : guidsFresh populatedDataSource) by (apply guidsFreshb_correct; reflexivity).
  split; [exact Hfresh|]. split; [reflexivity|].
  destruct (@empty_coordinates exampleScene emptyPolygon emptyPolygon emptyRingPolygon
              defaultCrsFunction populatedDataSource eq_refl eq_refl)
    as (Hentity & Hmulti & _).
  destruct (Hentity Hfresh) as (_ & Hpoint & Hpolygon & _).
  split; [apply Hpoint; reflexivity|]. split; [exact Hpolygon | exact Hmulti].
Defined.

Lemma load_featureCollection_witness :
  load initialRegistry (Some abcFeatures) populatedDataSource
  = (Ok (Fulfilled tt), (load initialRegistry (Some abcFeatures) populatedDataSource).2) /\
  length (_dynamicObjectCollection (load initialRegistry (Some abcFeatures) populatedDataSource).2)
  = 4.
Proof.
  assert (Hload : load initialRegistry (Some abcFeatures) populatedDataSource
                  = (Ok (Fulfilled tt),
                     (load initialRegistry (Some abcFeatures) populatedDataSource).2))
    by (vm_compute; reflexivity).
  split; [exact Hload|].
  destruct (load_featureCollection initialRegistry abcFeatures
              [ feature (Some "abc") (Defined pointDocument);
                feature (Some "abc") Null;
                feature None (Defined (withCoordinates (node "MultiPoint")
                                         (Arr [lonLat 0 0; lonLat 1 1]))) ]
              populatedDataSource _ eq_refl eq_refl Hload) as (_ & _ & Hlength).
  exact Hlength.
Defined.

Lemma load_crs84_same_as_no_crs_witness :
  crsNames initialRegistry !! "urn:ogc:def:crs:OGC:1.3:CRS84"
  = Some (@defaultCrsFunction exampleScene) /\
  forget (load initialRegistry
               (Some (withCrs pointDocument (namedCrs "urn:ogc:def:crs:OGC:1.3:CRS84")))
               populatedDataSource)
  = forget (load initialRegistry (Some (withCrs pointDocument Undefined)) populatedDataSource).
Proof.
  split; [reflexivity|].
  apply (load_crs84_same_as_no_crs initialRegistry pointDocument populatedDataSource).
  reflexivity.
Defined.

(** * Witnesses of the further properties *)

Lemma load_throw_untouched_witness :
  load initialRegistry (Some (withCrs pointDocument Null)) populatedDataSource
  = (Throw (InvalidCrs "crs is null."), populatedDataSource) /\
  load initialRegistry (Some inheritedLinkDocument) populatedDataSource
  = (Throw TypeError, with_collection populatedDataSource [] [Clear]).
Proof.
  assert (H : load initialRegistry (Some (withCrs pointDocument Null)) populatedDataSource
              = (Throw (InvalidCrs "crs is null."), populatedDataSource)) by reflexivity.
  split; [exact H|].
  destruct (load_throw_untouched _ _ _ _ _ H) as [_ Hcleared].
  apply (Hcleared inheritedLinkDocument (Own (Geometry ProcessPoint))); reflexivity.
Defined.

Lemma load_history_witness :
  load initialRegistry (Some abcFeatures) populatedDataSource
  = (Ok (Fulfilled tt), (load initialRegistry (Some abcFeatures) populatedDataSource).2) /\
  exists h,
    history (load initialRegistry (Some abcFeatures) populatedDataSource).2
    = history populatedDataSource ++ [Clear] ++ h ++ [Changed] /\
    Forall (fun e => isEntityEffect e = true) h.
Proof.
  assert (H : load initialRegistry (Some abcFeatures) populatedDataSource
              = (Ok (Fulfilled tt),
                 (load initialRegistry (Some abcFeatures) populatedDataSource).2))
    by (vm_compute; reflexivity).
  split; [exact H|]. exact (load_history _ _ _ _ _ H).
Defined.

Lemma handlers_keep_existing_entities_witness :
  guidsFresh populatedDataSource /\
  _dynamicObjectCollection populatedDataSource
    `prefix_of` _dynamicObjectCollection
                  (typeHandler ProcessFeatureCollection failingFeatures failingFeatures
                               defaultCrsFunction populatedDataSource).2.
Proof.
  assert (Hfresh : guidsFresh populatedDataSource) by (apply guidsFreshb_correct; reflexivity).
  split; [exact Hfresh|].
  exact (proj1 (handlers_keep_existing_entities ProcessFeatureCollection failingFeatures
                  failingFeatures defaultCrsFunction populatedDataSource Hfresh)).
Defined.

Lemma load_keys_unique_witness :
  load initialRegistry (Some failingFeatures) populatedDataSource
  = (Ok (Rejected MissingGeometry),
     (load initialRegistry (Some failingFeatures) populatedDataSource).2) /\
  NoDup (keys (_dynamicObjectCollection
                 (load initialRegistry (Some failingFeatures) populatedDataSource).2)).
Proof.
  assert (H : load initialRegistry (Some failingFeatures) populatedDataSource
              = (Ok (Rejected MissingGeometry),
                 (load initialRegistry (Some failingFeatures) populatedDataSource).2))
    by (vm_compute; reflexivity).
  split; [exact H|]. exact (load_keys_unique _ _ _ _ _ H).
Defined.

Lemma load_entities_from_document_witness :
  load initialRegistry (Some abcFeatures) populatedDataSource
  = (Ok (Fulfilled tt), (load initialRegistry (Some abcFeatures) populatedDataSource).2) /\
  Forall (madeFrom (documentNodes abcFeatures))
         (_dynamicObjectCollection
            (load initialRegistry (Some abcFeatures) populatedDataSource).2).
Proof.
  assert (H : load initialRegistry (Some abcFeatures) populatedDataSource
              = (Ok (Fulfilled tt),
                 (load initialRegistry (Some abcFeatures) populatedDataSource).2))
    by (vm_compute; reflexivity).
  split; [exact H|]. exact (load_entities_from_document _ _ _ _ _ H).
Defined.

Lemma load_stops_at_first_failing_feature_witness :
  load initialRegistry (Some failingFeatures) populatedDataSource
  = (Ok (Rejected MissingGeometry),
     (forEach (fun f => processFeature f defaultCrsFunction)
              [feature (Some "abc") (Defined pointDocument)]
              (with_collection populatedDataSource [] [Clear])).2) /\
  keys (_dynamicObjectCollection
          (load initialRegistry (Some failingFeatures) populatedDataSource).2)
  = [Id "abc"].
Proof.
  split; [|vm_compute; reflexivity].
  apply (load_stops_at_first_failing_feature initialRegistry failingFeatures
           [feature (Some "abc") (Defined pointDocument)]
           (feature (Some "bad") Undefined)
           [feature (Some "abc") Null]
           defaultCrsFunction MissingGeometry populatedDataSource
           (forEach (fun f => processFeature f defaultCrsFunction)
                    [feature (Some "abc") (Defined pointDocument)]
                    (with_collection populatedDataSource [] [Clear])).2
           (forEach (fun f => processFeature f defaultCrsFunction)
                    [feature (Some "abc") (Defined pointDocument)]
                    (with_collection populatedDataSource [] [Clear])).2);
    vm_compute; reflexivity.
Defined.

Lemma lineString_positions_in_order_witness :
  guidsFresh populatedDataSource /\
  exists k n,
    (k ∉ keys (_dynamicObjectCollection populatedDataSource)) /\
    processLineString lineDocument lineDocument defaultCrsFunction populatedDataSource
    = (Ok tt, extended populatedDataSource k
                (decoded lineDocument (defaultLine populatedDataSource) None
                         (Some [Some (examplePosition 0 0); Some (examplePosition 1 1)])) n
                [Create k; SetGeoJson k; Merge k; SetVertexPositions k]).
Proof.
  assert (Hfresh : guidsFresh populatedDataSource) by (apply guidsFreshb_correct; reflexivity).
  split; [exact Hfresh|].
  apply (@lineString_positions_in_order exampleScene lineDocument lineDocument
           defaultCrsFunction [lonLat 0 0; lonLat 1 1]
           [examplePosition 0 0; examplePosition 1 1] populatedDataSource Hfresh eq_refl).
  repeat constructor.
Defined.

Lemma polygon_outer_ring_only_witness :
  guidsFresh populatedDataSource /\
  exists k n,
    (k ∉ keys (_dynamicObjectCollection populatedDataSource)) /\
    processPolygon squareWithHole squareWithHole defaultCrsFunction populatedDataSource
    = (Ok tt, extended populatedDataSource k
                (decoded squareWithHole (defaultPolygon populatedDataSource) None
                         (Some [Some (examplePosition 0 0); Some (examplePosition 4 0);
                                Some (examplePosition 4 4); Some (examplePosition 0 4);
                                Some (examplePosition 0 0)])) n
                [Create k; SetGeoJson k; Merge k; SetVertexPositions k]).
Proof.
  assert (Hfresh : guidsFresh populatedDataSource) by (apply guidsFreshb_correct; reflexivity).
  split; [exact Hfresh|].
  apply (@polygon_outer_ring_only exampleScene squareWithHole squareWithHole
           defaultCrsFunction
           [lonLat 0 0; lonLat 4 0; lonLat 4 4; lonLat 0 4; lonLat 0 0] [holeRing]
           [examplePosition 0 0; examplePosition 4 0; examplePosition 4 4;
            examplePosition 0 4; examplePosition 0 0]
           populatedDataSource Hfresh eq_refl).
  repeat constructor.
Defined.

Lemma transform_exception_leaves_entity_witness :
  guidsFresh populatedDataSource /\
  exists k n,
    processLineString lineDocument lineDocument (fun _ => Throw (Reason "no transform"))
                      populatedDataSource
    = (Throw (Reason "no transform"), installed populatedDataSource k lineDocument n).
Proof.
  assert (Hfresh : guidsFresh populatedDataSource) by (apply guidsFreshb_correct; reflexivity).
  split; [exact Hfresh|].
  destruct (@transform_exception_leaves_entity exampleScene lineDocument lineDocument
              (fun _ => Throw (Reason "no transform")) (Reason "no transform")
              populatedDataSource Hfresh) as (k & n & _ & _ & Hline & _).
  exists k, n. apply (Hline (Arr [lonLat 0 0; lonLat 1 1])); reflexivity.
Defined.

Lemma multiPoint_feature_keys_witness :
  (forall m, Id (candidate "abc" m) ∉ keys (_dynamicObjectCollection populatedDataSource)) /\
  exists ds',
    processMultiPoint (feature (Some "abc") Null) lineDocument defaultCrsFunction
                      populatedDataSource = (Ok tt, ds') /\
    keys (_dynamicObjectCollection ds') = [Guid 0; Id "abc"; Id "abc_2"].
Proof.
  assert (Hnone : forall m,
             Id (candidate "abc" m) ∉ keys (_dynamicObjectCollection populatedDataSource)).
  { intros m Hin. change (Id (candidate "abc" m) ∈ [Guid 0]) in Hin.
    apply list_elem_of_singleton in Hin. discriminate. }
  split; [exact Hnone|].
  apply (@multiPoint_feature_keys exampleScene (feature (Some "abc") Null) lineDocument "abc"
           defaultCrsFunction [lonLat 0 0; lonLat 1 1] populatedDataSource
           eq_refl eq_refl eq_refl); [|exact Hnone].
  repeat constructor; eexists; reflexivity.
Defined.

Lemma multiPolygon_of_one_like_polygon_witness :
  guidsFresh populatedDataSource /\
  _dynamicObjectCollection
    (processMultiPolygon multiSquareWithHole multiSquareWithHole defaultCrsFunction
                         populatedDataSource).2
  = _dynamicObjectCollection
      (processPolygon multiSquareWithHole squareWithHole defaultCrsFunction
                      populatedDataSource).2.
Proof.
  assert (Hfresh : guidsFresh populatedDataSource) by (apply guidsFreshb_correct; reflexivity).
  split; [exact Hfresh|].
  apply (@multiPolygon_of_one_like_polygon exampleScene multiSquareWithHole
           multiSquareWithHole squareWithHole defaultCrsFunction
           (lonLat 0 0) [lonLat 4 0; lonLat 4 4; lonLat 0 4; lonLat 0 0] [holeRing]
           [Some (examplePosition 0 0); Some (examplePosition 4 0);
            Some (examplePosition 4 4); Some (examplePosition 0 4);
            Some (examplePosition 0 0)]
           populatedDataSource Hfresh eq_refl eq_refl eq_refl).
Defined.

Lemma load_crs_errors_witness :
  geoJsonObjectTypes !! type pointDocument = Some (Geometry ProcessPoint) /\
  load initialRegistry
       (Some (withCrs pointDocument
                (Defined {| crs_type := "EPSG"; crs_properties := Null |})))
       populatedDataSource
  = (Throw (UnknownCrsType "EPSG"), populatedDataSource).
Proof.
  split; [reflexivity|].
  destruct (load_crs_errors initialRegistry
              (withCrs pointDocument (Defined {| crs_type := "EPSG"; crs_properties := Null |}))
              (Geometry ProcessPoint) populatedDataSource eq_refl)
    as (_ & _ & _ & Htype & _).
  apply (Htype {| crs_type := "EPSG"; crs_properties := Null |}); [reflexivity|..];
    discriminate.
Defined.

Lemma missing_members_witness :
  guidsFresh populatedDataSource /\
  processMultiPoint (node "MultiPoint") (node "MultiPoint") defaultCrsFunction
                    populatedDataSource
  = (Throw TypeError, populatedDataSource).
Proof.
  assert (Hfresh : guidsFresh populatedDataSource) by (apply guidsFreshb_correct; reflexivity).
  split; [exact Hfresh|].
  destruct (@missing_members exampleScene (node "MultiPoint") (node "MultiPoint")
              defaultCrsFunction populatedDataSource Hfresh) as (_ & _ & Hc).
  apply Hc. reflexivity.
Defined.

Lemma loadUrl_outcomes_witness :
  Fulfilled pointDocument <> NoPromise /\
  exists p ds' errors,
    loadUrl initialRegistry (fun _ => Fulfilled pointDocument) (Some "data.geojson")
            populatedDataSource = (Ok p, ds', errors) /\
    errors = [].
Proof.
  split; [discriminate|].
  destruct (loadUrl_outcomes initialRegistry (fun _ => Fulfilled pointDocument)
              "data.geojson" populatedDataSource ltac:(discriminate))
    as (p & ds' & errors & Hrun & _ & Hok & _).
  exists p, ds', errors. split; [exact Hrun|]. exact (proj1 (Hok pointDocument eq_refl)).
Defined.
